(** * OutfitCast: the forecast pipeline of [OutfitCast.py]

    A shallow embedding of the four pure functions of the application
    ([city_to_seed], [synthesize_weather], [generate_hourly_forecast],
    [outfit_logic_from_weather]) and the properties that its design
    document states about them.

    Conventions.
    - A Python [int] is a [Z]; [%] with a positive modulus and [>>] are
      [Z.modulo] and [Z.shiftr] (both round towards minus infinity, as
      Python does).
    - A Python [str] is a Rocq [string] holding its UTF-8 encoding, so
      [s.encode("utf-8")] is the list of the bytes of [s].  Substring
      search, replacement and stripping of ASCII characters agree on both
      views because UTF-8 is self-synchronising.  (A [str] with an unpaired
      surrogate has no encoding and is not represented.)
    - The dictionaries with a fixed set of keys (a weather reading, an
      outfit, a recommendation, an hourly slot) are records whose fields
      bear the keys' names. *)

From Stdlib Require Import ZArith List String Ascii Bool Lia.
From Stdlib Require Import DecimalString.
Import ListNotations.

Local Open Scope string_scope.
Local Open Scope Z_scope.

(** ** Exceptions *)

Inductive PyExn : Type :=
| ValueError
| KeyError.

Inductive result (A : Type) : Type :=
| Ok (a : A)
| Raise (e : PyExn).

Arguments Ok {A} a.
Arguments Raise {A} e.

Definition bind {A B : Type} (m : result A) (k : A -> result B) : result B :=
  match m with
  | Ok a => k a
  | Raise e => Raise e
  end.

Notation "x <- m ;; k" := (bind m (fun x => k))
  (at level 61, m at next level, right associativity).

(** ** The string primitives the program uses *)

Module PyStr.

(** [str(n)] and the [{n}] of an f-string, for an [int]. *)
Definition of_int (n : Z) : string := NilZero.string_of_int (Z.to_int n).

Definition bytes_of (s : string) : list Z :=
  map (fun c => Z.of_N (N_of_ascii c)) (list_ascii_of_string s).

Fixpoint mem (c : ascii) (cs : string) : bool :=
  match cs with
  | EmptyString => false
  | String d cs' => Ascii.eqb c d || mem c cs'
  end.

(** [s.lstrip(cs)]: drop the longest prefix made of characters of [cs]. *)
Fixpoint lstrip (cs s : string) : string :=
  match s with
  | EmptyString => EmptyString
  | String c s' => if mem c cs then lstrip cs s' else s
  end.

Fixpoint rev_onto (s acc : string) : string :=
  match s with
  | EmptyString => acc
  | String c s' => rev_onto s' (String c acc)
  end.

Definition rev (s : string) : string := rev_onto s EmptyString.

Definition rstrip (cs s : string) : string := rev (lstrip cs (rev s)).

(** [s.strip(cs)] *)
Definition strip (cs s : string) : string := rstrip cs (lstrip cs s).

(** The ASCII white space, which [s.strip()] removes: space, TAB, LF, VT,
    FF, CR and the four separators FS, GS, RS, US.  (Python also strips
    white space outside ASCII; no string of the program has any at an
    end.) *)
Definition whitespace : string :=
  String (ascii_of_nat 32) (String (ascii_of_nat 9) (String (ascii_of_nat 10)
  (String (ascii_of_nat 11) (String (ascii_of_nat 12) (String (ascii_of_nat 13)
  (String (ascii_of_nat 28) (String (ascii_of_nat 29) (String (ascii_of_nat 30)
  (String (ascii_of_nat 31) EmptyString))))))))).

Definition strip_ws (s : string) : string := strip whitespace s.

(** [sub in s] *)
Fixpoint contains (sub s : string) : bool :=
  String.prefix sub s
  || match s with
     | EmptyString => false
     | String _ s' => contains sub s'
     end.

(** [s.replace(old, new)] for a non-empty [old]: the occurrences of [old]
    are replaced from left to right, without overlap.  [skip] counts the
    characters of a matched occurrence still to be passed over. *)
Fixpoint replace_from (old new : string) (skip : nat) (s : string) : string :=
  match s with
  | EmptyString => EmptyString
  | String c s' =>
      match skip with
      | S k => replace_from old new k s'
      | O =>
          if String.prefix old s
          then new ++ replace_from old new (Nat.pred (String.length old)) s'
          else String c (replace_from old new O s')
      end
  end.

Definition replace (old new s : string) : string := replace_from old new O s.

(** [s.split(sep)[0]] for a non-empty [sep]: what precedes the first
    occurrence of [sep], or all of [s] when there is none. *)
Fixpoint split_head (sep s : string) : string :=
  match s with
  | EmptyString => EmptyString
  | String c s' =>
      if String.prefix sep s then EmptyString else String c (split_head sep s')
  end.

(** [sep.join(l)] *)
Fixpoint join (sep : string) (l : list string) : string :=
  match l with
  | [] => EmptyString
  | [s] => s
  | s :: l' => s ++ sep ++ join sep l'
  end.

End PyStr.

(** ** SHA-256 (FIPS 180-4), as [hashlib.sha256] computes it *)

Module Sha256.

Definition w32 (x : Z) : Z := x mod 2 ^ 32.
Definition add32 (x y : Z) : Z := w32 (x + y).
Definition rotr (n x : Z) : Z :=
  Z.lor (Z.shiftr x n) (w32 (Z.shiftl x (32 - n))).
Definition not32 (x : Z) : Z := Z.lxor x 0xffffffff.

Definition Ch (x y z : Z) : Z := Z.lxor (Z.land x y) (Z.land (not32 x) z).
Definition Maj (x y z : Z) : Z :=
  Z.lxor (Z.lxor (Z.land x y) (Z.land x z)) (Z.land y z).
Definition bsig0 (x : Z) : Z := Z.lxor (Z.lxor (rotr 2 x) (rotr 13 x)) (rotr 22 x).
Definition bsig1 (x : Z) : Z := Z.lxor (Z.lxor (rotr 6 x) (rotr 11 x)) (rotr 25 x).
Definition ssig0 (x : Z) : Z := Z.lxor (Z.lxor (rotr 7 x) (rotr 18 x)) (Z.shiftr x 3).
Definition ssig1 (x : Z) : Z := Z.lxor (Z.lxor (rotr 17 x) (rotr 19 x)) (Z.shiftr x 10).

(** The constants of the standard are the first thirty-two bits of the
    fractional parts of the cube roots (for [K]) and of the square roots
    (for [H0]) of the first primes. *)
Definition is_prime (p : nat) : bool :=
  forallb (fun d => negb (Nat.eqb (Nat.modulo p d) 0)) (seq 2 (p - 2)).

Definition primes : list Z := map Z.of_nat (filter is_prime (seq 2 310)).

(** The integer cube root, one bit after the other from the highest. *)
Fixpoint cbrt_from (bits : nat) (n r : Z) : Z :=
  match bits with
  | O => r
  | S bits' =>
      let r' := r + 2 ^ Z.of_nat bits' in
      cbrt_from bits' n (if r' * r' * r' <=? n then r' else r)
  end.

Definition frac_cbrt (p : Z) : Z := w32 (cbrt_from 40 (p * 2 ^ 96) 0).
Definition frac_sqrt (p : Z) : Z := w32 (Z.sqrt (p * 2 ^ 64)).

Definition K : list Z := Eval vm_compute in map frac_cbrt primes.

(** The eight working words. *)
Record words8 : Type := W8 {
  wa : Z; wb : Z; wc : Z; wd : Z; we : Z; wf : Z; wg : Z; wh : Z
}.

Definition H0 : words8 :=
  Eval vm_compute in
    W8 (frac_sqrt 2) (frac_sqrt 3) (frac_sqrt 5) (frac_sqrt 7)
       (frac_sqrt 11) (frac_sqrt 13) (frac_sqrt 17) (frac_sqrt 19).

(** Big-endian bytes of a word, and back. *)
Definition be_bytes (n : nat) (x : Z) : list Z :=
  map (fun i => Z.shiftr x (8 * Z.of_nat i) mod 256) (List.rev (seq 0 n)).

Definition be_value (bs : list Z) : Z :=
  fold_left (fun acc b => acc * 256 + b) bs 0.

(** Message, one byte 0x80, zeros up to 56 modulo 64, the bit length on
    eight bytes. *)
Definition pad (msg : list Z) : list Z :=
  let len := Z.of_nat (List.length msg) in
  (msg ++ [0x80] ++ repeat 0 (Z.to_nat ((55 - len) mod 64)) ++ be_bytes 8 (8 * len))%list.

Fixpoint chunks {A : Type} (size count : nat) (l : list A) : list (list A) :=
  match count with
  | O => []
  | S count' => firstn size l :: chunks size count' (skipn size l)
  end.

Definition blocks (bs : list Z) : list (list Z) :=
  chunks 64 (Nat.div (List.length bs) 64) bs.

Definition block_words (block : list Z) : list Z :=
  map be_value (chunks 4 16 block).

(** The schedule: the sixteen words of the block, extended to sixty-four. *)
Fixpoint extend (count : nat) (ws : list Z) : list Z :=
  match count with
  | O => ws
  | S count' =>
      let i := List.length ws in
      let at_ k := nth (i - k) ws 0 in
      extend count'
        (ws ++ [add32 (add32 (ssig1 (at_ 2%nat)) (at_ 7%nat))
                      (add32 (ssig0 (at_ 15%nat)) (at_ 16%nat))])%list
  end.

Definition schedule (block : list Z) : list Z := extend 48 (block_words block).

Definition round (s : words8) (kw : Z * Z) : words8 :=
  let '(k, w) := kw in
  let t1 := add32 (add32 (add32 (wh s) (bsig1 (we s)))
                         (add32 (Ch (we s) (wf s) (wg s)) k)) w in
  let t2 := add32 (bsig0 (wa s)) (Maj (wa s) (wb s) (wc s)) in
  W8 (add32 t1 t2) (wa s) (wb s) (wc s) (add32 (wd s) t1) (we s) (wf s) (wg s).

Definition compress (h : words8) (block : list Z) : words8 :=
  let s := fold_left round (combine K (schedule block)) h in
  W8 (add32 (wa h) (wa s)) (add32 (wb h) (wb s)) (add32 (wc h) (wc s))
     (add32 (wd h) (wd s)) (add32 (we h) (we s)) (add32 (wf h) (wf s))
     (add32 (wg h) (wg s)) (add32 (wh h) (wh s)).

Definition final_words (msg : list Z) : words8 :=
  fold_left compress (blocks (pad msg)) H0.

(** [hashlib.sha256(msg).digest()]: thirty-two bytes. *)
Definition digest (msg : list Z) : list Z :=
  let h := final_words msg in
  flat_map (be_bytes 4) [wa h; wb h; wc h; wd h; we h; wf h; wg h; wh h].

Definition hex_char (n : Z) : ascii :=
  match String.get (Z.to_nat n) "0123456789abcdef" with
  | Some c => c
  | None => "0"%char
  end.

Fixpoint hex_of_bytes (bs : list Z) : string :=
  match bs with
  | [] => EmptyString
  | b :: bs' => String (hex_char (b / 16)) (String (hex_char (b mod 16)) (hex_of_bytes bs'))
  end.

(** [hashlib.sha256(msg).hexdigest()] *)
Definition hexdigest (msg : list Z) : string := hex_of_bytes (digest msg).

End Sha256.

(** ** [int(s, 16)]

    The digits of [s] are read in base sixteen; a character that is not a
    hexadecimal digit, or an empty [s], raises [ValueError].  (The signs,
    prefixes, underscores and surrounding blanks that Python also accepts
    do not occur in a hexadecimal digest and are not accepted here.) *)

Definition hex_digit_value (c : ascii) : option Z :=
  let n := Z.of_N (N_of_ascii c) in
  if (48 <=? n) && (n <=? 57) then Some (n - 48)
  else if (97 <=? n) && (n <=? 102) then Some (n - 87)
  else if (65 <=? n) && (n <=? 70) then Some (n - 55)
  else None.

Fixpoint int16_from (acc : Z) (s : string) : result Z :=
  match s with
  | EmptyString => Ok acc
  | String c s' =>
      match hex_digit_value c with
      | Some d => int16_from (acc * 16 + d) s'
      | None => Raise ValueError
      end
  end.

Definition int16 (s : string) : result Z :=
  match s with
  | EmptyString => Raise ValueError
  | _ => int16_from 0 s
  end.

(** ** The seed of a city *)

(** [city] is [None] for Python's [None] (no city selected yet). *)
Definition city_to_seed (city : option string) : result Z :=
  match city with
  | None | Some EmptyString => Ok 0
  | Some city =>
      let h := Sha256.hexdigest (PyStr.bytes_of city) in
      int16 (String.substring 0 8 h)
  end.

(** [l.append(x)] *)
Definition append {A : Type} (l : list A) (x : A) : list A := (l ++ [x])%list.

(** ** The weather of a seed *)

Record WeatherReading : Type := mkWeather {
  temp_c : Z;
  humidity : Z;
  precip_chance : Z;
  wind_kmh : Z;
  condition : string
}.

(** The [if]/[elif] cascade of [synthesize_weather] that names the
    condition. *)
Definition condition_of (temp_c humidity precip wind : Z) : string :=
  if precip >? 60 then
    (if wind >? 25 then "storm" else "rain")
  else if precip >? 25 then
    (if humidity >? 60 then "rain" else "partly")
  else if temp_c <=? 5 then "snow"
  else if (humidity >? 80) && (temp_c <? 20) then "mist"
  else if temp_c >=? 30 then "clear"
  else if temp_c >=? 22 then "partly"
  else "cloudy".

(** The body of [synthesize_weather] once the seed is known. *)
Definition weather_of_seed (seed : Z) : WeatherReading :=
  let temp_c := 12 + (seed mod 26) in
  let humidity := 30 + ((Z.shiftr seed 3) mod 71) in
  let precip := (Z.shiftr seed 6) mod 101 in
  let wind := 5 + ((Z.shiftr seed 10) mod 36) in
  let condition := condition_of temp_c humidity precip wind in
  mkWeather temp_c humidity precip wind condition.

Definition synthesize_weather (city : option string) : result WeatherReading :=
  seed <- city_to_seed city ;;
  Ok (weather_of_seed seed).

(** ** The hourly forecast *)

Definition WEATHER_EMOJI : list (string * string) :=
  [ ("clear", "☀️");
    ("partly", "⛅");
    ("cloudy", "☁️");
    ("rain", "🌧️");
    ("storm", "⛈️");
    ("snow", "❄️");
    ("mist", "🌫️") ].

Fixpoint dict_lookup (d : list (string * string)) (key : string) : option string :=
  match d with
  | [] => None
  | (k, v) :: d' => if String.eqb k key then Some v else dict_lookup d' key
  end.

(** [d[key]] *)
Definition dict_item (d : list (string * string)) (key : string) : result string :=
  match dict_lookup d key with
  | Some v => Ok v
  | None => Raise KeyError
  end.

(** [d.get(key, default)] *)
Definition dict_get (d : list (string * string)) (key default : string) : string :=
  match dict_lookup d key with
  | Some v => v
  | None => default
  end.

(** A naive local [datetime], as the microseconds elapsed since midnight of
    its first day; [timedelta(hours=i)] is [i] times the microseconds of an
    hour.  (The end of the calendar, in year 9999, is not represented.) *)
Definition datetime : Type := Z.

Definition hour_us : Z := 3600000000.
Definition add_hours (t : datetime) (i : Z) : datetime := t + i * hour_us.
Definition hour_of (t : datetime) : Z := (t / hour_us) mod 24.

Definition digit_char (d : Z) : ascii := ascii_of_N (Z.to_N (48 + d)).

(** [t.strftime("%I %p")]: the hour of the twelve-hour clock on two digits,
    a blank, and AM or PM; [h] is the hour of the day. *)
Definition format_I_p (h : Z) : string :=
  let h12 := if h mod 12 =? 0 then 12 else h mod 12 in
  String (digit_char (h12 / 10)) (String (digit_char (h12 mod 10))
    (" " ++ (if h <? 12 then "AM" else "PM"))).

Definition strftime_I_p (t : datetime) : string := format_I_p (hour_of t).

Record HourlySlot : Type := mkSlot {
  hour : string;
  temp : Z;
  emoji : string
}.

(** The emoji of hour [i]. *)
Definition pick_emoji (base_condition : string) (i seed_offset : Z) : result string :=
  let cond_variation_index := (i + seed_offset) mod 5 in
  if (String.eqb base_condition "rain" || String.eqb base_condition "storm")
     && (i mod 2 =? 0) then
    dict_item WEATHER_EMOJI "rain"
  else if String.eqb base_condition "clear" then
    (if cond_variation_index <? 3
     then dict_item WEATHER_EMOJI "clear"
     else dict_item WEATHER_EMOJI "partly")
  else if String.eqb base_condition "partly" then dict_item WEATHER_EMOJI "partly"
  else if String.eqb base_condition "cloudy" then dict_item WEATHER_EMOJI "cloudy"
  else if String.eqb base_condition "mist" then dict_item WEATHER_EMOJI "mist"
  else if String.eqb base_condition "snow" then dict_item WEATHER_EMOJI "snow"
  else Ok (dict_get WEATHER_EMOJI base_condition "🌤️").

(** One turn of the loop: the slot of hour [i]. *)
Definition hourly_slot (now : datetime) (base_temp : Z) (base_condition : string)
    (seed_offset i : Z) : result HourlySlot :=
  let hour_time := PyStr.lstrip "0" (strftime_I_p (add_hours now i)) in
  let temp := base_temp + ((i + seed_offset) mod 7) - 3 in
  emoji <- pick_emoji base_condition i seed_offset ;;
  Ok (mkSlot hour_time temp emoji).

(** [range(n)] *)
Definition range (n : nat) : list Z := map Z.of_nat (seq 0 n).

(** [now] stands for the value that [datetime.now()] returns. *)
Definition generate_hourly_forecast (now : datetime) (base_temp : Z)
    (base_condition : string) : result (list HourlySlot) :=
  let seed_offset := base_temp mod 7 in
  fold_left
    (fun hourly i =>
       hourly <- hourly ;;
       slot <- hourly_slot now base_temp base_condition seed_offset i ;;
       Ok (append hourly slot))
    (range 6) (Ok []).

(** ** The outfit rules *)

Record Outfit : Type := mkOutfit {
  top : string;
  bottom : string;
  outerwear : string;
  footwear : string;
  accessories : string
}.

(** The local helper [outfit]. *)
Definition outfit (top bottom outer footwear accessories : string) : Outfit :=
  mkOutfit top bottom outer footwear accessories.

(** The assignments to one key of an outfit. *)
Definition set_top (o : Outfit) (v : string) : Outfit :=
  mkOutfit v (bottom o) (outerwear o) (footwear o) (accessories o).
Definition set_outerwear (o : Outfit) (v : string) : Outfit :=
  mkOutfit (top o) (bottom o) v (footwear o) (accessories o).
Definition set_footwear (o : Outfit) (v : string) : Outfit :=
  mkOutfit (top o) (bottom o) (outerwear o) v (accessories o).
Definition set_accessories (o : Outfit) (v : string) : Outfit :=
  mkOutfit (top o) (bottom o) (outerwear o) (footwear o) v.

(** The local variables that the rules update. *)
Record Locals : Type := mkLocals {
  matches : Z;
  l_primary : Outfit;
  alt1 : Outfit;
  alt2 : Outfit;
  reasons : list string
}.

Record Recommendation : Type := mkRecommendation {
  primary : Outfit;
  alternates : list Outfit;
  confidence : Z;
  reasoning : string;
  bullets : list string
}.

Inductive Band : Type :=
| HotHumid
| Warm
| Cool
| Cold.

(** The tests of the first cascade, in their order; the last branch is the
    [else]. *)
Definition select_band (temp hum : Z) : Band :=
  if (temp >=? 30) && (hum >=? 65) then HotHumid
  else if (22 <=? temp) && (temp <? 30) then Warm
  else if (18 <=? temp) && (temp <? 22) then Cool
  else Cold.

(** The bodies of its four branches, run on [matches = 0] and
    [reasons = []]. *)
Definition band_body (b : Band) (w : WeatherReading) : Locals :=
  let temp := temp_c w in
  let hum := humidity w in
  let precip := precip_chance w in
  match b with
  | HotHumid =>
      mkLocals (0 + 2)
        (outfit "Breathable cotton t-shirt" "Light cotton shorts" "None" "Sandals" "Cap")
        (outfit "Linen shirt" "Chino shorts" "Light scarf" "Slip-ons" "Sunglasses")
        (outfit "Moisture-wicking tee" "Athletic shorts" "None" "Sport sandals"
                (if precip >? 30 then "Small umbrella" else "Cap"))
        (append [] ("High temperature (" ++ PyStr.of_int temp ++ " °C) and humidity ("
                ++ PyStr.of_int hum ++ "%) → breathable fabrics"))
  | Warm =>
      mkLocals (0 + 2)
        (outfit "Light long-sleeve tee" "Chinos" "Light layer (cardigan)" "Sneakers" "Watch")
        (outfit "Polo shirt" "Jeans" "Light jacket" "Casual sneakers" "Sunglasses")
        (outfit "Button-up shirt" "Tailored shorts" "Light hoodie" "Loafers" "Cap")
        (append [] ("Moderate temperature (" ++ PyStr.of_int temp ++ " °C) → light layers"))
  | Cool =>
      mkLocals (0 + 2)
        (outfit "Long-sleeve shirt" "Jeans" "Light jacket" "Sneakers" "Beanie (optional)")
        (outfit "Thermal tee" "Corduroy pants" "Denim jacket" "Ankle boots" "Scarf")
        (outfit "Sweater" "Chinos" "Trench coat" "Casual boots" "Watch")
        (append [] ("Cool temperature (" ++ PyStr.of_int temp
                ++ " °C) → consider light outerwear"))
  | Cold =>
      mkLocals (0 + 3)
        (outfit "Thermal top" "Warm trousers" "Warm coat" "Boots" "Scarf & gloves")
        (outfit "Wool sweater" "Jeans" "Puffer jacket" "Insulated boots" "Beanie")
        (outfit "Turtleneck" "Wool skirt + tights" "Overcoat" "Knee boots" "Gloves")
        (append [] ("Cold temperature (" ++ PyStr.of_int temp
                ++ " °C) → warm outerwear recommended"))
  end.

Definition band_rule (w : WeatherReading) : Locals :=
  band_body (select_band (temp_c w) (humidity w)) w.

(** Rain logic *)
Definition rain_rule (w : WeatherReading) (l : Locals) : Locals :=
  let precip := precip_chance w in
  if precip >? 40 then
    let primary := l_primary l in
    let primary :=
      set_accessories primary (PyStr.strip ", " (accessories primary ++ ", Umbrella")) in
    let primary :=
      if String.eqb (outerwear primary) "None"
      then set_outerwear primary "Packable raincoat"
      else primary in
    mkLocals (matches l + 2) primary (alt1 l) (alt2 l)
      (append (reasons l) ("High precipitation chance (" ++ PyStr.of_int precip
                     ++ "%) → carry umbrella or wear raincoat"))
  else l.

(** The rewording of the top, under the humidity rule. *)
Definition reword_top (primary : Outfit) : Outfit :=
  set_top primary
    (if PyStr.contains "Wool" (top primary)
     then PyStr.replace "Wool" "Breathable wool-blend" (top primary)
     else top primary).

(** Humidity bias *)
Definition humidity_rule (w : WeatherReading) (l : Locals) : Locals :=
  let hum := humidity w in
  if hum >? 70 then
    mkLocals (matches l + 1) (reword_top (l_primary l)) (alt1 l) (alt2 l)
      (append (reasons l) ("High humidity (" ++ PyStr.of_int hum
                     ++ "%) → prefer breathable fabrics and avoid heavy layers"))
  else l.

(** Wind consideration *)
Definition wind_rule (w : WeatherReading) (l : Locals) : Locals :=
  let wind := wind_kmh w in
  if wind >? 30 then
    mkLocals (matches l + 1) (l_primary l) (alt1 l) (alt2 l)
      (append (reasons l) ("Windy (" ++ PyStr.of_int wind
                     ++ " km/h) → consider secure footwear and windproof layers"))
  else l.

Definition confidence_of (temp matches : Z) : Z :=
  let confidence := Z.min 100 (40 + matches * 12) in
  if (temp >=? 30) || (temp <? 18) then Z.min 100 (confidence + 8) else confidence.

Definition reasoning_of (reasons : list string) : string :=
  PyStr.join " and "
    (map (fun s => PyStr.strip_ws (PyStr.split_head "→" s)) (firstn 2 reasons))
  ++ " — choose accordingly.".

Definition ensure_variation (base alt : Outfit) : Outfit :=
  if String.eqb (footwear base) (footwear alt)
     && String.eqb (accessories base) (accessories alt)
  then set_footwear alt (footwear alt ++ " (alt)")
  else alt.

(** What follows the rules: the score, the sentence, the alternates and the
    result ([int(confidence)] is [confidence], an [int] already). *)
Definition conclude (w : WeatherReading) (l : Locals) : Recommendation :=
  let confidence := confidence_of (temp_c w) (matches l) in
  let reasoning := reasoning_of (reasons l) in
  let alt1 := ensure_variation (l_primary l) (alt1 l) in
  let alt2 := ensure_variation (l_primary l) (alt2 l) in
  mkRecommendation (l_primary l) [alt1; alt2] confidence reasoning (reasons l).

Definition outfit_logic_from_weather (w : WeatherReading) : Recommendation :=
  conclude w (wind_rule w (humidity_rule w (rain_rule w (band_rule w)))).

(** ** The design document's wording, to compare the code with *)

Module Design.

(** Section 4.2: an ordered list of rules on (temperature, humidity,
    precipitation chance, wind); the first rule whose predicate holds gives
    the condition. *)
Definition Fields : Type := (Z * Z * Z * Z)%type.

Definition decision_list : list ((Fields -> bool) * string) :=
  [ (fun '(t, h, p, w) => (p >? 60) && (w >? 25), "storm");
    (fun '(t, h, p, w) => (p >? 60) && (w <=? 25), "rain");
    (fun '(t, h, p, w) => (p >? 25) && (h >? 60), "rain");
    (fun '(t, h, p, w) => (p >? 25) && (h <=? 60), "partly");
    (fun '(t, h, p, w) => t <=? 5, "snow");
    (fun '(t, h, p, w) => (h >? 80) && (t <? 20), "mist");
    (fun '(t, h, p, w) => t >=? 30, "clear");
    (fun '(t, h, p, w) => t >=? 22, "partly");
    (fun _ => true, "cloudy") ].

Fixpoint first_match {A B : Type} (rules : list ((A -> bool) * B)) (x : A) : option B :=
  match rules with
  | [] => None
  | (p, outcome) :: rules' => if p x then Some outcome else first_match rules' x
  end.

(** The seven names of a condition. *)
Definition conditions : list string :=
  ["clear"; "partly"; "cloudy"; "rain"; "storm"; "snow"; "mist"].

(** Section 3: the ranges of a reading. *)
Definition in_ranges (w : WeatherReading) : Prop :=
  12 <= temp_c w <= 37 /\ 30 <= humidity w <= 100 /\
  0 <= precip_chance w <= 100 /\ 5 <= wind_kmh w <= 40.

(** Section 4.3: the label of an hour of the day, on the twelve-hour clock,
    without a leading zero. *)
Definition clock12 (h : Z) : string :=
  PyStr.of_int ((h + 11) mod 12 + 1) ++ (if h <? 12 then " AM" else " PM").

(** Section 4.4: the rules and their weights. *)
Inductive Rule : Type :=
| BandRule (b : Band)
| PrecipRule
| HumidityRule
| WindRule.

Definition weight (r : Rule) : Z :=
  match r with
  | BandRule Cold => 3
  | BandRule _ => 2
  | PrecipRule => 2
  | HumidityRule => 1
  | WindRule => 1
  end.

(** The rules that fire on a reading: the band that the engine selects,
    then the modifiers whose threshold is passed. *)
Definition fired (w : WeatherReading) : list Rule :=
  (BandRule (select_band (temp_c w) (humidity w))
   :: (if precip_chance w >? 40 then [PrecipRule] else [])
   ++ (if humidity w >? 70 then [HumidityRule] else [])
   ++ (if wind_kmh w >? 30 then [WindRule] else []))%list.

Definition weight_sum (w : WeatherReading) : Z :=
  fold_right Z.add 0 (map weight (fired w)).

Definition confidence_formula (w : WeatherReading) : Z :=
  let base := Z.min 100 (40 + 12 * weight_sum w) in
  if (temp_c w >=? 30) || (temp_c w <? 18) then Z.min 100 (base + 8) else base.

(** The humidity rule with its rewording of the top left out: the weight
    and the note only. *)
Definition humidity_note_only (w : WeatherReading) (l : Locals) : Locals :=
  let hum := humidity w in
  if hum >? 70 then
    mkLocals (matches l + 1) (l_primary l) (alt1 l) (alt2 l)
      (append (reasons l) ("High humidity (" ++ PyStr.of_int hum
                     ++ "%) → prefer breathable fabrics and avoid heavy layers"))
  else l.

Definition outfit_logic_without_rewording (w : WeatherReading) : Recommendation :=
  conclude w (wind_rule w (humidity_note_only w (rain_rule w (band_rule w)))).

End Design.

(** ** The constants of the interface *)

(** The list [CAPITALS] of the select box. *)
Definition CAPITALS : list string :=
  [
    "Andhra Pradesh — Amaravati";
    "Arunachal Pradesh — Itanagar";
    "Assam — Dispur";
    "Bihar — Patna";
    "Chhattisgarh — Raipur";
    "Goa — Panaji";
    "Gujarat — Gandhinagar";
    "Haryana — Chandigarh";
    "Himachal Pradesh — Shimla";
    "Jharkhand — Ranchi";
    "Karnataka — Bengaluru";
    "Kerala — Thiruvananthapuram";
    "Madhya Pradesh — Bhopal";
    "Maharashtra — Mumbai";
    "Manipur — Imphal";
    "Meghalaya — Shillong";
    "Mizoram — Aizawl";
    "Nagaland — Kohima";
    "Odisha — Bhubaneswar";
    "Punjab — Chandigarh";
    "Rajasthan — Jaipur";
    "Sikkim — Gangtok";
    "Tamil Nadu — Chennai";
    "Telangana — Hyderabad";
    "Tripura — Agartala";
    "Uttar Pradesh — Lucknow";
    "Uttarakhand — Dehradun";
    "West Bengal — Kolkata";
    "Andaman and Nicobar Islands — Port Blair";
    "Chandigarh — Chandigarh";
    "Dadra and Nagar Haveli and Daman and Diu — Daman";
    "Delhi (NCT) — New Delhi";
    "Jammu & Kashmir — Srinagar";
    "Ladakh — Leh";
    "Lakshadweep — Kavaratti";
    "Puducherry — Puducherry" ].

(** The emoji that [WEATHER_EMOJI.get(condition, ...)] falls back on. *)
Definition FALLBACK_EMOJI : string := "🌤️".

(** ** The notes of the rules, in two parts

    Each note that a rule appends reads "clause → advice".  The clauses and
    the advices are those of the f-strings of [outfit_logic_from_weather]. *)

Module Notes.

Definition band_note (b : Band) (w : WeatherReading) : string * string :=
  match b with
  | HotHumid =>
      ("High temperature (" ++ PyStr.of_int (temp_c w) ++ " °C) and humidity ("
       ++ PyStr.of_int (humidity w) ++ "%)",
       "breathable fabrics")
  | Warm =>
      ("Moderate temperature (" ++ PyStr.of_int (temp_c w) ++ " °C)", "light layers")
  | Cool =>
      ("Cool temperature (" ++ PyStr.of_int (temp_c w) ++ " °C)",
       "consider light outerwear")
  | Cold =>
      ("Cold temperature (" ++ PyStr.of_int (temp_c w) ++ " °C)",
       "warm outerwear recommended")
  end.

Definition rain_note (w : WeatherReading) : string * string :=
  ("High precipitation chance (" ++ PyStr.of_int (precip_chance w) ++ "%)",
   "carry umbrella or wear raincoat").

Definition humidity_note (w : WeatherReading) : string * string :=
  ("High humidity (" ++ PyStr.of_int (humidity w) ++ "%)",
   "prefer breathable fabrics and avoid heavy layers").

Definition wind_note (w : WeatherReading) : string * string :=
  ("Windy (" ++ PyStr.of_int (wind_kmh w) ++ " km/h)",
   "consider secure footwear and windproof layers").

(** The notes of the rules that fire, in the order of the rules. *)
Definition fired_notes (w : WeatherReading) : list (string * string) :=
  (band_note (select_band (temp_c w) (humidity w)) w
   :: (if precip_chance w >? 40 then [rain_note w] else [])
   ++ (if humidity w >? 70 then [humidity_note w] else [])
   ++ (if wind_kmh w >? 30 then [wind_note w] else []))%list.

Definition render (note : string * string) : string :=
  fst note ++ " → " ++ snd note.

(** The first byte of the arrow, in UTF-8. *)
Definition arrow_byte : ascii := ascii_of_nat 226.

(** A clause that has no arrow and no blank at either end, and is not
    empty. *)
Definition tight (c : string) : Prop :=
  PyStr.mem arrow_byte c = false
  /\ PyStr.lstrip PyStr.whitespace c = c
  /\ PyStr.rstrip PyStr.whitespace c = c
  /\ c <> "".

End Notes.

(** ** The session and a run of the script

    A run of the script is [main]: it reads the widgets, updates
    [st.session_state] and renders.  The widgets are inputs: what
    [st.button] and [st.selectbox] return in the run, and the two readings of
    the clock.  Of the rendering only the calls that depend on the session
    are kept, as a log. *)

Record ForecastResult : Type := mkResult {
  res_city : string;
  res_weather : WeatherReading;
  res_outfit : Recommendation;
  res_hourly : list HourlySlot;
  res_time : string
}.

(** [st.session_state]; a key that the session does not hold is [None]. *)
Record Session : Type := mkSession {
  page : option string;
  selected_city : option (option string);
  forecast_generated : option bool;
  light_mode : option bool;
  last_result : option (option ForecastResult)
}.

Definition empty_session : Session := mkSession None None None None None.

Record Widgets : Type := mkWidgets {
  enter_clicked : bool;        (* st.button("Enter") *)
  selected : string;           (* st.selectbox(...) *)
  forecast_clicked : bool;     (* st.button("Forecast my outfit") *)
  clock_now : datetime;        (* datetime.now(), in generate_hourly_forecast *)
  clock_iso : string           (* datetime.now().isoformat() *)
}.

Inductive Shown : Type :=
| Warning                                 (* st.warning("Please choose a city ...") *)
| OutfitCard (r : ForecastResult)         (* show_outfit_card(last_result) *)
| WeatherSidebar (r : ForecastResult)     (* show_weather_sidebar(last_result) *)
| Placeholder.                            (* the mock summary of the sidebar *)

Inductive ScriptExn : Type :=
| AttributeError (key : string)           (* a key that the session does not hold *)
| Propagated (e : PyExn)                  (* raised by the pipeline *)
| Rerun.                                  (* st.rerun() *)

Record World : Type := mkWorld {
  session : Session;
  shown : list Shown
}.

Inductive answer (A : Type) : Type :=
| Val (a : A)
| Exn (e : ScriptExn).

Arguments Val {A} a.
Arguments Exn {A} e.

(** The state of the session and of the log is threaded through the calls;
    an exception stops the run and leaves the state as it is then. *)
Definition script (A : Type) : Type := World -> World * answer A.

Definition ret {A : Type} (a : A) : script A := fun wd => (wd, Val a).

Definition andthen {A B : Type} (m : script A) (k : A -> script B) : script B :=
  fun wd =>
    match m wd with
    | (wd', Val a) => k a wd'
    | (wd', Exn e) => (wd', Exn e)
    end.

Notation "x <~ m ;; k" := (andthen m (fun x => k))
  (at level 61, m at next level, right associativity).
Notation "m >> k" := (andthen m (fun _ => k))
  (at level 61, right associativity).

Definition raise {A : Type} (e : ScriptExn) : script A := fun wd => (wd, Exn e).

Definition lift {A : Type} (r : result A) : script A :=
  match r with
  | Ok a => ret a
  | Raise e => raise (Propagated e)
  end.

(** [st.session_state.key], read. *)
Definition attr {A : Type} (key : string) (field : Session -> option A) : script A :=
  fun wd =>
    match field (session wd) with
    | Some v => (wd, Val v)
    | None => (wd, Exn (AttributeError key))
    end.

Definition update (f : Session -> Session) : script unit :=
  fun wd => (mkWorld (f (session wd)) (shown wd), Val tt).

Definition show (x : Shown) : script unit :=
  fun wd => (mkWorld (session wd) (append (shown wd) x), Val tt).

(** [st.session_state.key = v] *)
Definition set_page (v : string) (st : Session) : Session :=
  mkSession (Some v) (selected_city st) (forecast_generated st) (light_mode st)
    (last_result st).
Definition set_selected_city (v : option string) (st : Session) : Session :=
  mkSession (page st) (Some v) (forecast_generated st) (light_mode st) (last_result st).
Definition set_forecast_generated (v : bool) (st : Session) : Session :=
  mkSession (page st) (selected_city st) (Some v) (light_mode st) (last_result st).
Definition set_light_mode (v : bool) (st : Session) : Session :=
  mkSession (page st) (selected_city st) (forecast_generated st) (Some v)
    (last_result st).
Definition set_last_result (v : option ForecastResult) (st : Session) : Session :=
  mkSession (page st) (selected_city st) (forecast_generated st) (light_mode st)
    (Some v).

Definition init_session_state (st : Session) : Session :=
  let st := match page st with None => set_page "landing" st | Some _ => st end in
  let st := match selected_city st with
            | None => set_selected_city None st
            | Some _ => st
            end in
  let st := match forecast_generated st with
            | None => set_forecast_generated false st
            | Some _ => st
            end in
  let st := match light_mode st with None => set_light_mode false st | Some _ => st end in
  let st := match last_result st with None => set_last_result None st | Some _ => st end in
  st.

(** The truth value of a city: [None] and the empty string are false. *)
Definition city_truth (city : option string) : bool :=
  match city with
  | None | Some EmptyString => false
  | Some _ => true
  end.

Definition landing_page (ui : Widgets) : script unit :=
  if enter_clicked ui then
    update (set_page "main") >>
    update (set_forecast_generated false) >>
    raise Rerun
  else ret tt.

(** The handler of the forecast button. *)
Definition forecast_button (ui : Widgets) : script unit :=
  city <~ attr "selected_city" selected_city ;;
  if negb (city_truth city) then show Warning
  else
    weather <~ lift (synthesize_weather city) ;;
    let outfit_result := outfit_logic_from_weather weather in
    hourly <~ lift (generate_hourly_forecast (clock_now ui) (temp_c weather)
                      (condition weather)) ;;
    update (set_last_result
              (Some (mkResult (match city with Some c => c | None => "" end)
                       weather outfit_result hourly (clock_iso ui)))) >>
    update (set_forecast_generated true).

Definition ui_main (ui : Widgets) : script unit :=
  let selected := selected ui in
  update (set_selected_city
            (match selected with EmptyString => None | _ => Some selected end)) >>
  (if forecast_clicked ui then forecast_button ui else ret tt) >>
  (generated <~ attr "forecast_generated" forecast_generated ;;
   if generated then
     result <~ attr "last_result" last_result ;;
     match result with
     | Some r => show (OutfitCard r)
     | None => ret tt
     end
   else ret tt) >>
  (city <~ attr "selected_city" selected_city ;;
   if city_truth city then
     generated <~ attr "forecast_generated" forecast_generated ;;
     if generated then
       result <~ attr "last_result" last_result ;;
       match result with
       | Some r => show (WeatherSidebar r)
       | None => show Placeholder
       end
     else show Placeholder
   else show Placeholder).

Definition main (ui : Widgets) : script unit :=
  update init_session_state >>
  _ <~ attr "light_mode" light_mode ;;
  page <~ attr "page" page ;;
  if String.eqb page "landing" then landing_page ui else ui_main ui.

(** A run, from a session. *)
Definition run (ui : Widgets) (st : Session) : World * answer unit :=
  main ui (mkWorld st []).

(** The select box offers the empty placeholder and the capitals. *)
Definition offered (ui : Widgets) : Prop := In (selected ui) ("" :: CAPITALS).

(** The sessions that runs of the script lead to, from the empty one. *)
Inductive reachable : Session -> Prop :=
| reach_empty : reachable empty_session
| reach_run (ui : Widgets) (st : Session) :
    reachable st -> offered ui -> reachable (session (fst (run ui st))).

(** A stored result holds what the pipeline gives for its city. *)
Definition coherent (r : ForecastResult) : Prop :=
  In (res_city r) CAPITALS
  /\ synthesize_weather (Some (res_city r)) = Ok (res_weather r)
  /\ res_outfit r = outfit_logic_from_weather (res_weather r)
  /\ exists now,
       generate_hourly_forecast now (temp_c (res_weather r)) (condition (res_weather r))
       = Ok (res_hourly r).

(** What holds of a session once a run has initialised it: the page is one
    of the two, the light mode is off, the selected city is none or a
    capital, a result is stored when the flag says so, and a stored result is
    coherent; on the landing page nothing is selected nor stored. *)
Definition ready (st : Session) : Prop :=
  (page st = Some "landing" \/ page st = Some "main")
  /\ light_mode st = Some false
  /\ (selected_city st = Some None
      \/ exists c, selected_city st = Some (Some c) /\ In c CAPITALS)
  /\ (exists (g : bool) (lr : option ForecastResult),
         forecast_generated st = Some g /\ last_result st = Some lr
         /\ (g = true -> lr <> None)
         /\ (forall r, lr = Some r -> coherent r))
  /\ (page st = Some "landing" ->
      selected_city st = Some None /\ forecast_generated st = Some false
      /\ last_result st = Some None).

(** What [ui_main] renders of a session, after its updates: the card when a
    result is stored and flagged, and the sidebar, which shows it when a
    city is selected as well. *)
Definition view (st : Session) : list Shown :=
  match forecast_generated st, last_result st with
  | Some true, Some (Some r) =>
      [OutfitCard r;
       match selected_city st with
       | Some city => if city_truth city then WeatherSidebar r else Placeholder
       | None => Placeholder
       end]
  | _, _ => [Placeholder]
  end.

(** A scenario: the Enter button, then a forecast for Chennai, then Mumbai
    selected and no button pressed. *)
Definition ui_enter : Widgets := mkWidgets true "" false 0 "".
Definition ui_chennai : Widgets :=
  mkWidgets false "Tamil Nadu — Chennai" true (13 * hour_us) "2025-01-01T13:00:00".
Definition ui_mumbai : Widgets :=
  mkWidgets false "Maharashtra — Mumbai" false (14 * hour_us) "2025-01-01T14:00:00".

Definition after_enter : Session := session (fst (run ui_enter empty_session)).
Definition after_chennai : Session := session (fst (run ui_chennai after_enter)).

(** Pairwise different elements, by a test of equality. *)
Fixpoint distinct {A : Type} (eqb : A -> A -> bool) (l : list A) : bool :=
  match l with
  | [] => true
  | x :: l' => negb (existsb (eqb x) l') && distinct eqb l'
  end.

(** ** Tactics *)

(** Case analysis on the tests of a cascade, turned into (in)equalities. *)
Ltac by_tests :=
  repeat match goal with
         | |- context [if ?b then _ else _] => destruct b eqn:?
         end.

Ltac to_prop :=
  repeat match goal with
         | H : (_ && _) = true |- _ => apply andb_prop in H; destruct H
         | H : (_ && _) = false |- _ => apply andb_false_iff in H; destruct H
         | H : (_ || _) = true |- _ => apply orb_prop in H; destruct H
         | H : (_ || _) = false |- _ => apply orb_false_elim in H; destruct H
         | H : (_ >? _) = _ |- _ => rewrite Z.gtb_ltb in H
         | H : (_ >=? _) = _ |- _ => rewrite Z.geb_leb in H
         | H : (_ <? _) = true |- _ => apply Z.ltb_lt in H
         | H : (_ <? _) = false |- _ => apply Z.ltb_ge in H
         | H : (_ <=? _) = true |- _ => apply Z.leb_le in H
         | H : (_ <=? _) = false |- _ => apply Z.leb_gt in H
         | H : (_ =? _) = true |- _ => apply Z.eqb_eq in H
         | H : (_ =? _) = false |- _ => apply Z.eqb_neq in H
         end.

(** * Properties *)

(** ** The model of SHA-256 on the standard vectors *)

Example sha256_empty :
  Sha256.hexdigest []
  = "e3b0c44298fc1c149afbf4c8996fb92427ae41e4649b934ca495991b7852b855".
Proof. vm_compute. reflexivity. Qed.

Example sha256_abc :
  Sha256.hexdigest (PyStr.bytes_of "abc")
  = "ba7816bf8f01cfea414140de5dae2223b00361a396177a9cb410ff61f20015ad".
Proof. vm_compute. reflexivity. Qed.

(** Two blocks: 56 and 119 bytes. *)
Example sha256_two_blocks :
  Sha256.hexdigest (repeat 97 56)
  = "b35439a4ac6f0948b6d6f9e3c6af0f5f590ce20f1bde7090ef7970686ec6738a"
  /\ Sha256.hexdigest (repeat 97 119)
  = "31eba51c313a5c08226adf18d4a359cfdfd8d2e816b13f4af952f7ea6584dcfb".
Proof. split; vm_compute; reflexivity. Qed.

Example of_int_decimal :
  PyStr.of_int 35 = "35" /\ PyStr.of_int 0 = "0" /\ PyStr.of_int (-5) = "-5".
Proof. repeat split. Qed.

Example seed_of_kerala :
  city_to_seed (Some "Kerala — Thiruvananthapuram") = Ok 428937874.
Proof. vm_compute. reflexivity. Qed.

(** ** The weather synthesizer *)

Lemma seed_fields_in_ranges (seed : Z) : Design.in_ranges (weather_of_seed seed).
Proof.
  unfold Design.in_ranges, weather_of_seed; cbn [temp_c humidity precip_chance wind_kmh].
  pose proof (Z.mod_pos_bound seed 26 eq_refl).
  pose proof (Z.mod_pos_bound (Z.shiftr seed 3) 71 eq_refl).
  pose proof (Z.mod_pos_bound (Z.shiftr seed 6) 101 eq_refl).
  pose proof (Z.mod_pos_bound (Z.shiftr seed 10) 36 eq_refl).
  lia.
Qed.

Lemma condition_of_not_snow (t h p w : Z) :
  5 < t -> condition_of t h p w <> "snow".
Proof.
  intros Ht. unfold condition_of.
  destruct (t <=? 5) eqn:E; [apply Z.leb_le in E; lia|].
  by_tests; discriminate.
Qed.

(** C4. For every seed of 32 bits, each field of the reading is given by its
    shift-and-modulo formula and lies in its range: temperature in [12,37],
    humidity in [30,100], precipitation chance in [0,100], wind in [5,40]. *)
Theorem weather_of_seed_ranges (seed : Z) (Hseed : 0 <= seed < 2 ^ 32) :
  let w := weather_of_seed seed in
  temp_c w = 12 + seed mod 26
  /\ humidity w = 30 + (Z.shiftr seed 3) mod 71
  /\ precip_chance w = (Z.shiftr seed 6) mod 101
  /\ wind_kmh w = 5 + (Z.shiftr seed 10) mod 36
  /\ 12 <= temp_c w <= 37
  /\ 30 <= humidity w <= 100
  /\ 0 <= precip_chance w <= 100
  /\ 5 <= wind_kmh w <= 40.
Proof.
  intros w. repeat (split; [reflexivity|]).
  exact (seed_fields_in_ranges seed).
Qed.

Lemma weather_of_seed_ranges_witness :
  0 <= 428937874 < 2 ^ 32
  /\ temp_c (weather_of_seed 428937874) = 26
  /\ 12 <= temp_c (weather_of_seed 428937874) <= 37.
Proof.
  assert (H : 0 <= 428937874 < 2 ^ 32) by lia.
  split; [exact H|].
  destruct (weather_of_seed_ranges 428937874 H) as (Ht & _ & _ & _ & Hr & _).
  split; [rewrite Ht; reflexivity | exact Hr].
Defined.

(** The bounds of C4 are reached. *)
Lemma weather_ranges_tight :
  temp_c (weather_of_seed 0) = 12 /\ temp_c (weather_of_seed 25) = 37
  /\ humidity (weather_of_seed 0) = 30 /\ humidity (weather_of_seed 560) = 100
  /\ precip_chance (weather_of_seed 0) = 0 /\ precip_chance (weather_of_seed 6400) = 100
  /\ wind_kmh (weather_of_seed 0) = 5 /\ wind_kmh (weather_of_seed 35840) = 40.
Proof. vm_compute. repeat split. Qed.

(** C9. For every seed of 32 bits the synthesizer never answers "snow": the
    test [temp_c <= 5] of that branch fails, the temperature being at least
    12. *)
Theorem weather_of_seed_never_snow (seed : Z) (Hseed : 0 <= seed < 2 ^ 32) :
  (temp_c (weather_of_seed seed) <=? 5) = false
  /\ condition (weather_of_seed seed) <> "snow".
Proof.
  pose proof (seed_fields_in_ranges seed) as (Ht & _).
  split.
  - apply Z.leb_gt. lia.
  - cbn [condition weather_of_seed]. cbn [temp_c weather_of_seed] in Ht.
    apply condition_of_not_snow. lia.
Qed.

Lemma weather_of_seed_never_snow_witness :
  0 <= 4294967295 < 2 ^ 32 /\ condition (weather_of_seed 4294967295) <> "snow".
Proof.
  assert (H : 0 <= 4294967295 < 2 ^ 32) by lia.
  split; [exact H | exact (proj2 (weather_of_seed_never_snow 4294967295 H))].
Defined.

(** C3. On every four fields the condition that the synthesizer names is the
    outcome of the first rule of the decision list of section 4.2 that
    matches; a rule always matches, and the outcome is one of the seven
    conditions. *)
Theorem condition_is_first_match :
  (forall t h p w : Z,
      Design.first_match Design.decision_list (t, h, p, w)
      = Some (condition_of t h p w)
      /\ In (condition_of t h p w) Design.conditions)
  /\ (forall seed : Z,
         let r := weather_of_seed seed in
         Design.first_match Design.decision_list
           (temp_c r, humidity r, precip_chance r, wind_kmh r)
         = Some (condition r)).
Proof.
  assert (A : forall t h p w : Z,
             Design.first_match Design.decision_list (t, h, p, w)
             = Some (condition_of t h p w)
             /\ In (condition_of t h p w) Design.conditions).
  { intros t h p w. unfold condition_of, Design.conditions.
    cbn [Design.first_match Design.decision_list].
    destruct (p >? 60) eqn:P60; cbn [andb].
    - destruct (w >? 25) eqn:W25.
      + cbn; auto 10.
      + replace (w <=? 25) with true
          by (symmetry; apply Z.leb_le; rewrite Z.gtb_ltb in W25; apply Z.ltb_ge in W25; lia).
        cbn; auto 10.
    - destruct (p >? 25) eqn:P25; cbn [andb].
      + destruct (h >? 60) eqn:H60.
        * cbn; auto 10.
        * replace (h <=? 60) with true
            by (symmetry; apply Z.leb_le; rewrite Z.gtb_ltb in H60; apply Z.ltb_ge in H60; lia).
          cbn; auto 10.
      + by_tests; cbn; auto 10. }
  split; [exact A|].
  intros seed r. apply A.
Qed.

(** ** The seed deriver *)

(** A property checked on each of [0 .. n-1] holds below [n]. *)
Lemma checked_on_range (P : Z -> bool) (n : nat) :
  forallb P (range n) = true -> forall k, 0 <= k < Z.of_nat n -> P k = true.
Proof.
  intros H k Hk. rewrite forallb_forall in H. apply H.
  unfold range. rewrite <- (Z2Nat.id k) by lia.
  apply in_map, in_seq. lia.
Qed.

Lemma hex_digit_value_hex_char (n : Z) :
  0 <= n < 16 -> hex_digit_value (Sha256.hex_char n) = Some n.
Proof.
  intros Hn.
  pose proof (checked_on_range
                (fun k => match hex_digit_value (Sha256.hex_char k) with
                          | Some d => d =? k
                          | None => false
                          end) 16 eq_refl n Hn) as H.
  cbv beta in H. destruct (hex_digit_value (Sha256.hex_char n)); [|discriminate H].
  apply Z.eqb_eq in H. subst. reflexivity.
Qed.

Lemma nibbles (b : Z) :
  0 <= b < 256 -> 0 <= b / 16 < 16 /\ 0 <= b mod 16 < 16 /\ b = 16 * (b / 16) + b mod 16.
Proof.
  intros Hb.
  pose proof (Z.div_mod b 16 ltac:(lia)).
  pose proof (Z.mod_pos_bound b 16 eq_refl).
  lia.
Qed.

(** The first eight digits of the hexadecimal form of a byte string read
    back as the big-endian value of its first four bytes. *)
Lemma int16_first_eight_digits (b0 b1 b2 b3 : Z) (rest : list Z) :
  0 <= b0 < 256 -> 0 <= b1 < 256 -> 0 <= b2 < 256 -> 0 <= b3 < 256 ->
  int16 (String.substring 0 8 (Sha256.hex_of_bytes (b0 :: b1 :: b2 :: b3 :: rest)))
  = Ok (Sha256.be_value [b0; b1; b2; b3]).
Proof.
  intros H0 H1 H2 H3.
  destruct (nibbles b0 H0) as (? & ? & ?), (nibbles b1 H1) as (? & ? & ?),
           (nibbles b2 H2) as (? & ? & ?), (nibbles b3 H3) as (? & ? & ?).
  cbn [Sha256.hex_of_bytes String.substring int16 int16_from].
  rewrite !hex_digit_value_hex_char by assumption.
  replace (String.substring 0 0 (Sha256.hex_of_bytes rest)) with EmptyString
    by (destruct (Sha256.hex_of_bytes rest); reflexivity).
  cbn [int16_from Sha256.be_value fold_left].
  f_equal. lia.
Qed.

Lemma be_bytes_4 (x : Z) :
  Sha256.be_bytes 4 x
  = [Z.shiftr x 24 mod 256; Z.shiftr x 16 mod 256; Z.shiftr x 8 mod 256;
     Z.shiftr x 0 mod 256].
Proof. reflexivity. Qed.

(** A digest has thirty-two bytes. *)
Lemma digest_shape (msg : list Z) :
  List.length (Sha256.digest msg) = 32%nat
  /\ Forall (fun b => 0 <= b < 256) (Sha256.digest msg).
Proof.
  unfold Sha256.digest. generalize (Sha256.final_words msg) as h. intros h.
  cbn [flat_map]. rewrite !be_bytes_4. cbn [List.app List.length].
  split; [reflexivity|].
  repeat (apply Forall_cons; [apply Z.mod_pos_bound; reflexivity|]).
  apply Forall_nil.
Qed.

Lemma hex_of_bytes_length (bs : list Z) :
  String.length (Sha256.hex_of_bytes bs) = (2 * List.length bs)%nat.
Proof.
  induction bs as [|b bs IH]; [reflexivity|].
  cbn [Sha256.hex_of_bytes String.length List.length]. rewrite IH. lia.
Qed.

Lemma be_value_4_bound (b0 b1 b2 b3 : Z) :
  0 <= b0 < 256 -> 0 <= b1 < 256 -> 0 <= b2 < 256 -> 0 <= b3 < 256 ->
  0 <= Sha256.be_value [b0; b1; b2; b3] < 2 ^ 32.
Proof.
  intros. cbn [Sha256.be_value fold_left].
  change (2 ^ 32) with 4294967296. lia.
Qed.

(** The seed of a non-empty city. *)
Lemma seed_of_digest (msg : list Z) :
  int16 (String.substring 0 8 (Sha256.hexdigest msg))
  = Ok (Sha256.be_value (firstn 4 (Sha256.digest msg)))
  /\ 0 <= Sha256.be_value (firstn 4 (Sha256.digest msg)) < 2 ^ 32.
Proof.
  unfold Sha256.hexdigest.
  destruct (digest_shape msg) as (Hlen & Hall).
  destruct (Sha256.digest msg) as [|b0 [|b1 [|b2 [|b3 rest]]]]; try discriminate Hlen.
  inversion Hall as [|? ? B0 Hall1]; subst.
  inversion Hall1 as [|? ? B1 Hall2]; subst.
  inversion Hall2 as [|? ? B2 Hall3]; subst.
  inversion Hall3 as [|? ? B3 _]; subst.
  split.
  - apply int16_first_eight_digits; assumption.
  - apply be_value_4_bound; assumption.
Qed.

(** The deriver raises no exception and its seed has thirty-two bits. *)
Lemma city_to_seed_total (city : option string) :
  exists seed, city_to_seed city = Ok seed /\ 0 <= seed < 2 ^ 32.
Proof.
  destruct city as [[|c city]|].
  - exists 0. split; [reflexivity | lia].
  - eexists. unfold city_to_seed. split; apply seed_of_digest.
  - exists 0. split; [reflexivity | lia].
Qed.

(** From any city the synthesizer returns a reading within the ranges, whose
    condition is not "snow". *)
Lemma synthesize_weather_total (city : option string) :
  exists w, synthesize_weather city = Ok w
            /\ Design.in_ranges w /\ condition w <> "snow".
Proof.
  destruct (city_to_seed_total city) as (seed & E & _).
  exists (weather_of_seed seed). unfold synthesize_weather. rewrite E. cbn [bind].
  split; [reflexivity|]. split; [apply seed_fields_in_ranges|].
  pose proof (seed_fields_in_ranges seed) as (Ht & _).
  cbn [condition weather_of_seed]. cbn [temp_c weather_of_seed] in Ht.
  apply condition_of_not_snow. lia.
Qed.

(** ** The hourly forecast *)

Lemma pick_emoji_ok (base_condition : string) (i seed_offset : Z) :
  exists e, pick_emoji base_condition i seed_offset = Ok e.
Proof.
  unfold pick_emoji. by_tests; eexists; reflexivity.
Qed.

(** The label that the code builds is the twelve-hour clock time of the
    design, which bears no leading zero. *)
Lemma hour_label (t : datetime) :
  PyStr.lstrip "0" (strftime_I_p t) = Design.clock12 (hour_of t)
  /\ String.prefix "0" (Design.clock12 (hour_of t)) = false.
Proof.
  unfold strftime_I_p.
  assert (B : 0 <= hour_of t < 24) by (apply Z.mod_pos_bound; reflexivity).
  pose proof (checked_on_range
                (fun h => String.eqb (PyStr.lstrip "0" (format_I_p h)) (Design.clock12 h)
                          && negb (String.prefix "0" (Design.clock12 h)))
                24 eq_refl (hour_of t) B) as H.
  cbv beta in H. apply andb_prop in H. destruct H as (E & N).
  apply String.eqb_eq in E. apply negb_true_iff in N. auto.
Qed.

(** Hour [i] of the forecast is [i] hours after the hour of [now]. *)
Lemma hour_of_add_hours (now : datetime) (i : Z) :
  hour_of (add_hours now i) = (hour_of now + i) mod 24.
Proof.
  unfold hour_of, add_hours.
  rewrite Z.div_add by (unfold hour_us; lia).
  rewrite Zplus_mod_idemp_l. reflexivity.
Qed.

Lemma swing_bound (base_temp i : Z) :
  base_temp - 3 <= base_temp + ((i + base_temp mod 7) mod 7) - 3 <= base_temp + 3.
Proof.
  pose proof (Z.mod_pos_bound (i + base_temp mod 7) 7 eq_refl). lia.
Qed.

Lemma hourly_slot_ok (now : datetime) (base_temp : Z) (base_condition : string) (i : Z) :
  exists s,
    hourly_slot now base_temp base_condition (base_temp mod 7) i = Ok s
    /\ hour s = Design.clock12 ((hour_of now + i) mod 24)
    /\ temp s = base_temp + ((i + base_temp mod 7) mod 7) - 3.
Proof.
  unfold hourly_slot.
  destruct (pick_emoji_ok base_condition i (base_temp mod 7)) as (e & ->).
  cbn [bind]. eexists. split; [reflexivity|]. cbn [hour temp].
  split; [|reflexivity].
  rewrite <- hour_of_add_hours. apply hour_label.
Qed.

(** The loop, from any list of hours and any slots already gathered. *)
Lemma hourly_loop (now : datetime) (base_temp : Z) (base_condition : string)
    (hours : list Z) :
  forall acc : list HourlySlot,
  exists slots,
    fold_left
      (fun hourly i =>
         hourly <- hourly ;;
         slot <- hourly_slot now base_temp base_condition (base_temp mod 7) i ;;
         Ok (append hourly slot))
      hours (Ok acc)
    = Ok (acc ++ slots)%list
    /\ map hour slots = map (fun i => Design.clock12 ((hour_of now + i) mod 24)) hours
    /\ map temp slots
       = map (fun i => base_temp + ((i + base_temp mod 7) mod 7) - 3) hours.
Proof.
  induction hours as [|i hours IH]; intros acc.
  - exists []. cbn. rewrite app_nil_r. auto.
  - destruct (hourly_slot_ok now base_temp base_condition i) as (s & Es & Eh & Et).
    cbn [fold_left bind]. rewrite Es. cbn [bind].
    change (append acc s) with (acc ++ [s])%list.
    destruct (IH (acc ++ [s])%list) as (slots & E & Hh & Ht).
    exists (s :: slots). rewrite E, <- app_assoc. cbn [List.app map].
    rewrite Hh, Ht, Eh, Et. auto.
Qed.

(** C7. Whatever the base temperature, the base condition and the clock, the
    generator returns six slots, in the order of the hours; slot [i] bears
    the twelve-hour clock time of the hour of [now] plus [i], without a
    leading zero, and the base temperature plus
    [((i + base_temp mod 7) mod 7) - 3], which is within 3 of the base. *)
Theorem hourly_forecast_six_slots (now : datetime) (base_temp : Z)
    (base_condition : string) :
  exists slots,
    generate_hourly_forecast now base_temp base_condition = Ok slots
    /\ List.length slots = 6%nat
    /\ map hour slots
       = map (fun i => Design.clock12 ((hour_of now + i) mod 24)) [0; 1; 2; 3; 4; 5]
    /\ map (fun i => hour_of (add_hours now i)) [0; 1; 2; 3; 4; 5]
       = map (fun i => (hour_of now + i) mod 24) [0; 1; 2; 3; 4; 5]
    /\ Forall (fun s => String.prefix "0" (hour s) = false) slots
    /\ map temp slots
       = map (fun i => base_temp + ((i + base_temp mod 7) mod 7) - 3) [0; 1; 2; 3; 4; 5]
    /\ Forall (fun s => base_temp - 3 <= temp s <= base_temp + 3) slots.
Proof.
  unfold generate_hourly_forecast.
  destruct (hourly_loop now base_temp base_condition (range 6) []) as (slots & E & Hh & Ht).
  exists slots. cbv zeta. rewrite E. cbn [List.app].
  change (range 6) with [0; 1; 2; 3; 4; 5] in Hh, Ht.
  split; [reflexivity|].
  split; [rewrite <- (length_map hour), Hh; reflexivity|].
  split; [exact Hh|].
  split; [cbn [map]; rewrite !hour_of_add_hours; reflexivity|].
  split.
  - apply Forall_forall. intros s Hs.
    apply (in_map hour) in Hs. rewrite Hh in Hs.
    apply in_map_iff in Hs. destruct Hs as (i & <- & _).
    rewrite <- hour_of_add_hours. apply hour_label.
  - split; [exact Ht|].
    apply Forall_forall. intros s Hs.
    apply (in_map temp) in Hs. rewrite Ht in Hs.
    apply in_map_iff in Hs. destruct Hs as (i & <- & _).
    apply swing_bound.
Qed.

(** At one o'clock in the afternoon, from 31 degrees and a clear sky. *)
Example hourly_at_1pm :
  generate_hourly_forecast (13 * hour_us + 5) 31 "clear"
  = Ok (map (fun '(h, t, e) => mkSlot h t (dict_get WEATHER_EMOJI e ""))
          [ ("1 PM", 31, "partly"); ("2 PM", 32, "partly"); ("3 PM", 33, "clear");
            ("4 PM", 34, "clear"); ("5 PM", 28, "clear"); ("6 PM", 29, "partly") ]).
Proof. vm_compute. reflexivity. Qed.

(** Across midnight. *)
Example hourly_labels_at_10pm :
  match generate_hourly_forecast (22 * hour_us) (-2) "storm" with
  | Ok slots => map hour slots = ["10 PM"; "11 PM"; "12 AM"; "1 AM"; "2 AM"; "3 AM"]
  | Raise _ => False
  end.
Proof. vm_compute. reflexivity. Qed.

(** ** The outfit rules: the bands *)

(** The four bands as the cascade tells them apart. *)
Lemma select_band_cases (temp hum : Z) :
  (select_band temp hum = HotHumid <-> 30 <= temp /\ 65 <= hum)
  /\ (select_band temp hum = Warm <-> 22 <= temp < 30)
  /\ (select_band temp hum = Cool <-> 18 <= temp < 22)
  /\ (select_band temp hum = Cold <-> temp < 18 \/ (30 <= temp /\ hum < 65)).
Proof.
  unfold select_band.
  by_tests; to_prop;
    repeat split; intros; try discriminate; try reflexivity; lia.
Qed.

(** C1. The reading synthesized for the city "Tamil Nadu — Chennai" has 36
    degrees and 60 per cent of humidity.  No test of the cascade holds on it
    (the first needs a humidity of 65 at least), so the [else] branch, which
    the source annotates with [temp < 18], runs: the engine selects the cold
    triad with weight 3 and notes a cold temperature of 36 degrees. *)
Theorem chennai_gets_the_cold_band :
  let w := mkWeather 36 60 33 10 "partly" in
  synthesize_weather (Some "Tamil Nadu — Chennai") = Ok w
  /\ select_band (temp_c w) (humidity w) = Cold
  /\ matches (band_rule w) = 3
  /\ l_primary (band_rule w)
     = outfit "Thermal top" "Warm trousers" "Warm coat" "Boots" "Scarf & gloves"
  /\ bullets (outfit_logic_from_weather w)
     = ["Cold temperature (36 °C) → warm outerwear recommended"]
  /\ ~ temp_c w < 18.
Proof.
  cbv zeta. split; [vm_compute; reflexivity|].
  repeat (split; [reflexivity|]).
  cbn [temp_c]. lia.
Qed.

(** ** The outfit rules: weights and confidence *)

Lemma matches_band_rule (w : WeatherReading) :
  matches (band_rule w)
  = Design.weight (Design.BandRule (select_band (temp_c w) (humidity w))).
Proof.
  unfold band_rule. destruct (select_band (temp_c w) (humidity w)); reflexivity.
Qed.

Lemma matches_rain_rule (w : WeatherReading) (l : Locals) :
  matches (rain_rule w l) = matches l + (if precip_chance w >? 40 then 2 else 0).
Proof.
  unfold rain_rule. cbv zeta. destruct (precip_chance w >? 40); cbn [matches]; lia.
Qed.

Lemma matches_humidity_rule (w : WeatherReading) (l : Locals) :
  matches (humidity_rule w l) = matches l + (if humidity w >? 70 then 1 else 0).
Proof.
  unfold humidity_rule. cbv zeta. destruct (humidity w >? 70); cbn [matches]; lia.
Qed.

Lemma matches_wind_rule (w : WeatherReading) (l : Locals) :
  matches (wind_rule w l) = matches l + (if wind_kmh w >? 30 then 1 else 0).
Proof.
  unfold wind_rule. cbv zeta. destruct (wind_kmh w >? 30); cbn [matches]; lia.
Qed.

(** The counter of the engine is the sum of the weights of the rules that
    fire. *)
Lemma matches_is_weight_sum (w : WeatherReading) :
  matches (wind_rule w (humidity_rule w (rain_rule w (band_rule w))))
  = Design.weight_sum w.
Proof.
  rewrite matches_wind_rule, matches_humidity_rule, matches_rain_rule,
    matches_band_rule.
  unfold Design.weight_sum, Design.fired.
  destruct (precip_chance w >? 40), (humidity w >? 70), (wind_kmh w >? 30);
    cbn [map List.app fold_right Design.weight]; lia.
Qed.

(** One note for each rule that fires. *)
Lemma one_note_per_fired_rule (w : WeatherReading) :
  List.length (bullets (outfit_logic_from_weather w))
  = List.length (Design.fired w).
Proof.
  unfold outfit_logic_from_weather, conclude, Design.fired. cbv zeta. cbn [bullets].
  unfold wind_rule, humidity_rule, rain_rule, band_rule. cbv zeta.
  destruct (select_band (temp_c w) (humidity w));
    destruct (precip_chance w >? 40), (humidity w >? 70), (wind_kmh w >? 30);
    reflexivity.
Qed.

Lemma weight_sum_bounds (w : WeatherReading) : 2 <= Design.weight_sum w <= 7.
Proof.
  unfold Design.weight_sum, Design.fired.
  destruct (select_band (temp_c w) (humidity w));
    destruct (precip_chance w >? 40), (humidity w >? 70), (wind_kmh w >? 30);
    cbn; lia.
Qed.

(** C5. The confidence returned is [min(100, 40 + 12*W)], [W] being the sum
    of the weights of the rules that fired, to which 8 is added, up to 100,
    exactly when the temperature is at least 30 or below 18; it lies in
    [0,100]. *)
Theorem confidence_is_the_formula (w : WeatherReading) :
  let r := outfit_logic_from_weather w in
  let W := Design.weight_sum w in
  confidence r = Design.confidence_formula w
  /\ ((30 <= temp_c w \/ temp_c w < 18) /\ confidence r = Z.min 100 (Z.min 100 (40 + 12 * W) + 8)
      \/ (18 <= temp_c w < 30) /\ confidence r = Z.min 100 (40 + 12 * W))
  /\ 0 <= confidence r <= 100.
Proof.
  cbv zeta.
  assert (E : confidence (outfit_logic_from_weather w) = Design.confidence_formula w).
  { unfold outfit_logic_from_weather, conclude. cbv zeta. cbn [confidence].
    rewrite matches_is_weight_sum.
    unfold confidence_of, Design.confidence_formula. cbv zeta.
    rewrite (Z.mul_comm (Design.weight_sum w) 12). reflexivity. }
  rewrite E. split; [reflexivity|].
  pose proof (weight_sum_bounds w).
  unfold Design.confidence_formula. cbv zeta.
  destruct ((temp_c w >=? 30) || (temp_c w <? 18)) eqn:T; to_prop;
    (split; [first [left; split; [lia | reflexivity]
                   | right; split; [lia | reflexivity]]
            | lia]).
Qed.

(** C2, as the code has it.  On the reading with temperature 35, humidity
    70, precipitation chance 10 and wind 10, the band is the hot and humid
    one, of weight 2; the humidity rule does not fire, 70 being no more than
    its threshold of 70, and no other modifier does; the confidence is 72,
    that is [min(100, 40 + 12*2) = 64] and the bonus of 8 of a temperature
    of 30 or more. *)
Theorem scenario_35_70_10_10 (cond : string) :
  let w := mkWeather 35 70 10 10 cond in
  let r := outfit_logic_from_weather w in
  select_band (temp_c w) (humidity w) = HotHumid
  /\ Design.fired w = [Design.BandRule HotHumid]
  /\ humidity_rule w (rain_rule w (band_rule w)) = band_rule w
  /\ Design.weight_sum w = 2
  /\ primary r
     = outfit "Breathable cotton t-shirt" "Light cotton shorts" "None" "Sandals" "Cap"
  /\ bullets r = ["High temperature (35 °C) and humidity (70%) → breathable fabrics"]
  /\ confidence r = 72.
Proof. cbv zeta. repeat split. Qed.

(** C2, counterexample: on that reading the humidity rule is not
    among the rules that fire and the confidence is 72, not 84. *)
Lemma scenario_35_70_10_10_is_not_84 :
  confidence (outfit_logic_from_weather (mkWeather 35 70 10 10 "clear")) = 72
  /\ ~ (select_band 35 70 = HotHumid
        /\ In Design.HumidityRule (Design.fired (mkWeather 35 70 10 10 "clear"))
        /\ confidence (outfit_logic_from_weather (mkWeather 35 70 10 10 "clear")) = 84).
Proof.
  split; [reflexivity|].
  intros (_ & _ & H). vm_compute in H. discriminate H.
Qed.

(** ** The outfit rules: the alternates *)

Lemma length_append (s t : string) :
  String.length (s ++ t) = (String.length s + String.length t)%nat.
Proof.
  induction s as [|c s IH]; [reflexivity|].
  cbn [String.append String.length]. rewrite IH. reflexivity.
Qed.

Lemma marked_differs (s : string) : s ++ " (alt)" <> s.
Proof.
  intros E. apply (f_equal String.length) in E.
  rewrite length_append in E. cbn [String.length] in E. lia.
Qed.

(** What [ensure_variation] returns, and that it differs from the base in
    the footwear or in the accessories. *)
Lemma ensure_variation_cases (base alt : Outfit) :
  ((footwear base = footwear alt /\ accessories base = accessories alt)
   /\ ensure_variation base alt = set_footwear alt (footwear alt ++ " (alt)")
   \/ ~ (footwear base = footwear alt /\ accessories base = accessories alt)
      /\ ensure_variation base alt = alt)
  /\ ~ (footwear (ensure_variation base alt) = footwear base
        /\ accessories (ensure_variation base alt) = accessories base).
Proof.
  unfold ensure_variation.
  destruct (String.eqb_spec (footwear base) (footwear alt)) as [Ef | Nf];
    [destruct (String.eqb_spec (accessories base) (accessories alt)) as [Ea | Na]|];
    cbn [andb].
  - split; [left; auto|]. cbn [set_footwear footwear]. rewrite Ef.
    intros (E & _). exact (marked_differs _ E).
  - split; [right; split; [tauto | reflexivity]|]. intros (_ & E). auto.
  - split; [right; split; [tauto | reflexivity]|]. intros (E & _). auto.
Qed.

(** C6. In the recommendation returned for any reading, and even from any
    values of the locals before the conclusion, there are two alternates and
    none has both the footwear and the accessories of the primary outfit; an
    alternate that had both got " (alt)" appended to its footwear, any other
    is returned as it was built. *)
Theorem alternates_differ_from_primary :
  (forall w : WeatherReading,
      let r := outfit_logic_from_weather w in
      List.length (alternates r) = 2%nat
      /\ Forall (fun alt => ~ (footwear alt = footwear (primary r)
                               /\ accessories alt = accessories (primary r)))
                (alternates r))
  /\ (forall (w : WeatherReading) (l : Locals),
         let r := conclude w l in
         alternates r = map (ensure_variation (primary r)) [alt1 l; alt2 l]
         /\ Forall (fun alt => ~ (footwear alt = footwear (primary r)
                                  /\ accessories alt = accessories (primary r)))
                   (alternates r))
  /\ (forall base alt : Outfit,
         (footwear base = footwear alt /\ accessories base = accessories alt)
         /\ ensure_variation base alt = set_footwear alt (footwear alt ++ " (alt)")
         \/ ~ (footwear base = footwear alt /\ accessories base = accessories alt)
            /\ ensure_variation base alt = alt).
Proof.
  assert (A : forall (w : WeatherReading) (l : Locals),
             let r := conclude w l in
             alternates r = map (ensure_variation (primary r)) [alt1 l; alt2 l]
             /\ Forall (fun alt => ~ (footwear alt = footwear (primary r)
                                      /\ accessories alt = accessories (primary r)))
                       (alternates r)).
  { intros w l. unfold conclude. cbv zeta. cbn [alternates primary map].
    split; [reflexivity|].
    repeat (apply Forall_cons; [apply ensure_variation_cases|]).
    apply Forall_nil. }
  split; [|split; [exact A|]].
  - intros w. unfold outfit_logic_from_weather. cbv zeta.
    split; [reflexivity | apply A].
  - intros base alt. apply ensure_variation_cases.
Qed.

(** The marker at work, on locals that no band builds. *)
Example ensure_variation_marks :
  ensure_variation (outfit "a" "b" "c" "Boots" "Scarf") (outfit "x" "y" "z" "Boots" "Scarf")
  = outfit "x" "y" "z" "Boots (alt)" "Scarf".
Proof. reflexivity. Qed.

(** ** The outfit rules: the rewording of the top *)

Lemma set_top_same (o : Outfit) : set_top o (top o) = o.
Proof. destruct o; reflexivity. Qed.

Lemma reword_top_without_wool (o : Outfit) :
  PyStr.contains "Wool" (top o) = false -> reword_top o = o.
Proof.
  intros H. unfold reword_top. rewrite H. apply set_top_same.
Qed.

(** No primary top of a band names wool. *)
Lemma band_top_without_wool (b : Band) (w : WeatherReading) :
  PyStr.contains "Wool" (top (l_primary (band_body b w))) = false.
Proof. destruct b; reflexivity. Qed.

(** The rain rule leaves the top as it is. *)
Lemma rain_rule_top (w : WeatherReading) (l : Locals) :
  top (l_primary (rain_rule w l)) = top (l_primary l).
Proof.
  unfold rain_rule. cbv zeta.
  destruct (precip_chance w >? 40); [|reflexivity].
  cbn [l_primary]. by_tests; reflexivity.
Qed.

Lemma humidity_rule_without_wool (w : WeatherReading) (l : Locals) :
  PyStr.contains "Wool" (top (l_primary l)) = false ->
  humidity_rule w l = Design.humidity_note_only w l.
Proof.
  intros H. unfold humidity_rule, Design.humidity_note_only. cbv zeta.
  rewrite (reword_top_without_wool _ H). reflexivity.
Qed.

Lemma wind_rule_primary (w : WeatherReading) (l : Locals) :
  l_primary (wind_rule w l) = l_primary l.
Proof. unfold wind_rule. cbv zeta. by_tests; reflexivity. Qed.

Lemma humidity_note_only_primary (w : WeatherReading) (l : Locals) :
  l_primary (Design.humidity_note_only w l) = l_primary l.
Proof. unfold Design.humidity_note_only. cbv zeta. by_tests; reflexivity. Qed.

(** C10. For every reading the top of the primary outfit returned is the top
    that the selected band sets: no such top contains "Wool", so the
    rewording of the humidity rule changes nothing, and the engine returns
    what it would return without it. *)
Theorem rewording_never_applies (w : WeatherReading) :
  let b := select_band (temp_c w) (humidity w) in
  top (primary (outfit_logic_from_weather w)) = top (l_primary (band_body b w))
  /\ In (top (primary (outfit_logic_from_weather w)))
        ["Breathable cotton t-shirt"; "Light long-sleeve tee"; "Long-sleeve shirt";
         "Thermal top"]
  /\ PyStr.contains "Wool" (top (primary (outfit_logic_from_weather w))) = false
  /\ outfit_logic_from_weather w = Design.outfit_logic_without_rewording w.
Proof.
  cbv zeta.
  assert (W : PyStr.contains "Wool" (top (l_primary (rain_rule w (band_rule w)))) = false).
  { rewrite rain_rule_top. apply band_top_without_wool. }
  assert (E : outfit_logic_from_weather w = Design.outfit_logic_without_rewording w).
  { unfold outfit_logic_from_weather, Design.outfit_logic_without_rewording.
    rewrite (humidity_rule_without_wool w _ W). reflexivity. }
  assert (T : top (primary (outfit_logic_from_weather w))
              = top (l_primary (band_body (select_band (temp_c w) (humidity w)) w))).
  { rewrite E. unfold Design.outfit_logic_without_rewording, conclude. cbv zeta.
    cbn [primary]. rewrite wind_rule_primary, humidity_note_only_primary, rain_rule_top.
    reflexivity. }
  split; [exact T|]. rewrite T.
  split; [|split; [apply band_top_without_wool | exact E]].
  destruct (select_band (temp_c w) (humidity w)); cbn; auto.
Qed.

(** The rewording at work, on a top that no band sets. *)
Example reword_top_wool :
  top (reword_top (outfit "Wool sweater" "Jeans" "Puffer jacket" "Insulated boots" "Beanie"))
  = "Breathable wool-blend sweater".
Proof. reflexivity. Qed.

(** ** The seed deriver, and the pipeline from the seed 0 *)

(** C8. The deriver returns the seed 0, and no error, for a missing or an
    empty city, and from that seed the pipeline gives a reading within the
    ranges, six hourly slots and a recommendation with two alternates and a
    confidence in [0,100]; for a non-empty city it returns the number that the first eight
    hexadecimal digits of the SHA-256 digest of the bytes of the city
    denote, which has thirty-two bits. *)
Theorem city_to_seed_fallback_and_digest :
  city_to_seed None = Ok 0
  /\ city_to_seed (Some "") = Ok 0
  /\ synthesize_weather None = Ok (mkWeather 12 30 0 5 "cloudy")
  /\ synthesize_weather (Some "") = Ok (mkWeather 12 30 0 5 "cloudy")
  /\ Design.in_ranges (mkWeather 12 30 0 5 "cloudy")
  /\ (forall now : datetime,
         exists slots, generate_hourly_forecast now 12 "cloudy" = Ok slots
                       /\ List.length slots = 6%nat)
  /\ List.length (alternates (outfit_logic_from_weather (mkWeather 12 30 0 5 "cloudy")))
     = 2%nat
  /\ confidence (outfit_logic_from_weather (mkWeather 12 30 0 5 "cloudy")) = 84
  /\ (forall city : string,
         city <> "" ->
         let h := Sha256.hexdigest (PyStr.bytes_of city) in
         let seed := Sha256.be_value (firstn 4 (Sha256.digest (PyStr.bytes_of city))) in
         String.length h = 64%nat
         /\ String.length (String.substring 0 8 h) = 8%nat
         /\ int16 (String.substring 0 8 h) = Ok seed
         /\ city_to_seed (Some city) = Ok seed
         /\ 0 <= seed < 2 ^ 32).
Proof.
  repeat (split; [reflexivity|]).
  split; [unfold Design.in_ranges; cbn; lia|].
  split.
  { intros now.
    destruct (hourly_loop now 12 "cloudy" (range 6) []) as (slots & E & Hh & _).
    exists slots. unfold generate_hourly_forecast. cbv zeta. rewrite E.
    split; [reflexivity|]. rewrite <- (length_map hour), Hh. reflexivity. }
  do 2 (split; [reflexivity|]).
  intros city Hne. cbv zeta.
  destruct (seed_of_digest (PyStr.bytes_of city)) as (E & B).
  assert (L : String.length (Sha256.hexdigest (PyStr.bytes_of city)) = 64%nat).
  { unfold Sha256.hexdigest. rewrite hex_of_bytes_length.
    rewrite (proj1 (digest_shape _)). reflexivity. }
  split; [exact L|].
  split.
  { destruct (Sha256.hexdigest (PyStr.bytes_of city))
      as [|c0 [|c1 [|c2 [|c3 [|c4 [|c5 [|c6 [|c7 s]]]]]]]]; try discriminate L.
    cbn [String.substring String.length]. destruct s; reflexivity. }
  split; [exact E|]. split; [|exact B].
  destruct city as [|c city]; [contradiction Hne; reflexivity|].
  unfold city_to_seed. exact E.
Qed.

Lemma city_to_seed_fallback_and_digest_witness :
  "Kerala — Thiruvananthapuram" <> ""
  /\ city_to_seed (Some "Kerala — Thiruvananthapuram") = Ok 428937874.
Proof.
  assert (N : "Kerala — Thiruvananthapuram" <> "") by discriminate.
  split; [exact N|].
  destruct city_to_seed_fallback_and_digest as (_ & _ & _ & _ & _ & _ & _ & _ & H).
  destruct (H "Kerala — Thiruvananthapuram" N) as (_ & _ & _ & E & _).
  rewrite E. vm_compute. reflexivity.
Defined.

(** * Further properties of the code *)

(** ** The synthesizer, from a city *)
(** X1. Whatever the city, missing and empty included, [synthesize_weather]
    raises nothing and returns the reading of the seed of the city: its four
    numbers are in their ranges and its condition, the one that the cascade
    gives on these numbers, is one of storm, rain, partly, mist, clear and
    cloudy. *)
Theorem synthesize_weather_of_any_city (city : option string) :
  exists seed w,
    city_to_seed city = Ok seed
    /\ 0 <= seed < 2 ^ 32
    /\ synthesize_weather city = Ok w
    /\ w = weather_of_seed seed
    /\ Design.in_ranges w
    /\ condition w = condition_of (temp_c w) (humidity w) (precip_chance w) (wind_kmh w)
    /\ In (condition w) ["storm"; "rain"; "partly"; "mist"; "clear"; "cloudy"].
Proof.
  destruct (city_to_seed_total city) as (seed & E & B).
  exists seed, (weather_of_seed seed).
  unfold synthesize_weather. rewrite E. cbn [bind].
  repeat (split; [reflexivity || assumption|]).
  split; [apply seed_fields_in_ranges|]. split; [reflexivity|].
  pose proof (seed_fields_in_ranges seed) as (Ht & _).
  cbn [condition weather_of_seed]. cbn [temp_c weather_of_seed] in Ht.
  unfold condition_of.
  destruct (12 + seed mod 26 <=? 5) eqn:T; [apply Z.leb_le in T; lia|].
  by_tests; cbn; auto 10.
Qed.

(** X2. The region of each condition: storm when the precipitation chance
    is above 60 and the wind above 25; rain when the chance is above 60 with
    less wind, or above 25 with a humidity above 60; and so on down the
    cascade, each condition by the numbers alone. *)
Theorem condition_regions (t h p w : Z) :
  (condition_of t h p w = "storm" <-> 60 < p /\ 25 < w)
  /\ (condition_of t h p w = "rain"
      <-> (60 < p /\ w <= 25) \/ (25 < p <= 60 /\ 60 < h))
  /\ (condition_of t h p w = "partly"
      <-> (25 < p <= 60 /\ h <= 60) \/ (p <= 25 /\ 22 <= t < 30))
  /\ (condition_of t h p w = "snow" <-> p <= 25 /\ t <= 5)
  /\ (condition_of t h p w = "mist" <-> p <= 25 /\ 5 < t < 20 /\ 80 < h)
  /\ (condition_of t h p w = "clear" <-> p <= 25 /\ 30 <= t)
  /\ (condition_of t h p w = "cloudy"
      <-> p <= 25 /\ 5 < t < 22 /\ (h <= 80 \/ 20 <= t)).
Proof.
  unfold condition_of.
  by_tests; to_prop;
    repeat split; intros; try discriminate; try reflexivity; lia.
Qed.

(** X3. Over the seeds of 32 bits the synthesizer produces exactly six
    conditions: each of storm, rain, partly, mist, clear and cloudy comes
    from some seed, and nothing else does. *)
Theorem conditions_of_seeds (c : string) :
  (exists seed, 0 <= seed < 2 ^ 32 /\ condition (weather_of_seed seed) = c)
  <-> In c ["storm"; "rain"; "partly"; "mist"; "clear"; "cloudy"].
Proof.
  split.
  - intros (seed & _ & <-).
    pose proof (seed_fields_in_ranges seed) as (Ht & _).
    cbn [condition weather_of_seed]. cbn [temp_c weather_of_seed] in Ht.
    unfold condition_of.
    destruct (12 + seed mod 26 <=? 5) eqn:T; [apply Z.leb_le in T; lia|].
    by_tests; cbn; auto 10.
  - intros H. cbn [In] in H.
    destruct H as [<- | [<- | [<- | [<- | [<- | [<- | []]]]]]].
    + exists 23296. split; [lia | reflexivity].
    + exists 1664. split; [lia | reflexivity].
    + exists 10. split; [lia | reflexivity].
    + exists 416. split; [lia | reflexivity].
    + exists 18. split; [lia | reflexivity].
    + exists 0. split; [lia | reflexivity].
Qed.

(** ** The hourly forecast, slot by slot *)

(** The loop again, each slot with the turn that made it. *)
Lemma hourly_loop_slots (now : datetime) (base_temp : Z) (base_condition : string)
    (hours : list Z) :
  forall acc : list HourlySlot,
  exists slots,
    fold_left
      (fun hourly i =>
         hourly <- hourly ;;
         slot <- hourly_slot now base_temp base_condition (base_temp mod 7) i ;;
         Ok (append hourly slot))
      hours (Ok acc)
    = Ok (acc ++ slots)%list
    /\ Forall2
         (fun i s => hourly_slot now base_temp base_condition (base_temp mod 7) i = Ok s)
         hours slots.
Proof.
  induction hours as [|i hours IH]; intros acc.
  - exists []. cbn. rewrite app_nil_r. auto.
  - destruct (hourly_slot_ok now base_temp base_condition i) as (s & Es & _).
    cbn [fold_left bind]. rewrite Es. cbn [bind].
    change (append acc s) with (acc ++ [s])%list.
    destruct (IH (acc ++ [s])%list) as (slots & E & F).
    exists (s :: slots). rewrite E, <- app_assoc. cbn [List.app].
    split; [reflexivity | constructor; assumption].
Qed.

(** The forecast is the list of the six slots of the hours 0 to 5. *)
Lemma forecast_slots (now : datetime) (base_temp : Z) (base_condition : string) :
  exists slots,
    generate_hourly_forecast now base_temp base_condition = Ok slots
    /\ Forall2
         (fun i s => hourly_slot now base_temp base_condition (base_temp mod 7) i = Ok s)
         [0; 1; 2; 3; 4; 5] slots.
Proof.
  destruct (hourly_loop_slots now base_temp base_condition (range 6) []) as (slots & E & F).
  exists slots. unfold generate_hourly_forecast. cbv zeta. rewrite E.
  split; [reflexivity | exact F].
Qed.

Lemma forecast_temps (now : datetime) (base_temp : Z) (base_condition : string) :
  exists slots,
    generate_hourly_forecast now base_temp base_condition = Ok slots
    /\ map temp slots
       = map (fun i => base_temp + ((i + base_temp mod 7) mod 7) - 3) [0; 1; 2; 3; 4; 5]
    /\ map hour slots
       = map (fun i => Design.clock12 ((hour_of now + i) mod 24)) [0; 1; 2; 3; 4; 5].
Proof.
  destruct (hourly_loop now base_temp base_condition (range 6) []) as (slots & E & Hh & Ht).
  exists slots. unfold generate_hourly_forecast. cbv zeta. rewrite E.
  split; [reflexivity|]. split; assumption.
Qed.

(** X4. From one slot to the next the temperature rises by one degree, save
    at most once in the six slots, where it falls by six; the six
    temperatures are pairwise different. *)
Theorem hourly_temperatures_climb (now : datetime) (base_temp : Z)
    (base_condition : string) :
  exists slots t0 t1 t2 t3 t4 t5,
    generate_hourly_forecast now base_temp base_condition = Ok slots
    /\ map temp slots = [t0; t1; t2; t3; t4; t5]
    /\ (t1 = t0 + 1 \/ t1 = t0 - 6)
    /\ (t2 = t1 + 1 \/ t2 = t1 - 6)
    /\ (t3 = t2 + 1 \/ t3 = t2 - 6)
    /\ (t4 = t3 + 1 \/ t4 = t3 - 6)
    /\ (t5 = t4 + 1 \/ t5 = t4 - 6)
    /\ (t5 = t0 + 5 \/ t5 = t0 - 2)
    /\ NoDup [t0; t1; t2; t3; t4; t5].
Proof.
  destruct (forecast_temps now base_temp base_condition) as (slots & E & Ht & _).
  cbn [map] in Ht.
  eexists slots, _, _, _, _, _, _.
  split; [exact E|]. split; [exact Ht|].
  pose proof (Z.mod_pos_bound base_temp 7 eq_refl) as B.
  generalize dependent (base_temp mod 7). intros o _ B.
  repeat (split; [Z.div_mod_to_equations; lia|]).
  repeat (constructor; [cbn [In]; Z.div_mod_to_equations; lia|]). constructor.
Qed.

(** X5. The first slot, the one of the current hour, bears the base
    temperature plus [base_temp mod 7 - 3]: it shows the base temperature
    itself only when [base_temp mod 7 = 3]; and the base temperature is the
    temperature of some slot unless [base_temp mod 7 = 4]. *)
Theorem hourly_first_slot (now : datetime) (base_temp : Z) (base_condition : string) :
  exists slots first,
    generate_hourly_forecast now base_temp base_condition = Ok slots
    /\ nth_error slots 0 = Some first
    /\ temp first = base_temp + base_temp mod 7 - 3
    /\ (temp first = base_temp <-> base_temp mod 7 = 3)
    /\ (In base_temp (map temp slots) <-> base_temp mod 7 <> 4).
Proof.
  destruct (forecast_temps now base_temp base_condition) as (slots & E & Ht & _).
  cbn [map] in Ht.
  destruct slots as [|first slots]; [discriminate Ht|].
  exists (first :: slots), first.
  split; [exact E|]. split; [reflexivity|].
  rewrite Ht. cbn [map] in Ht. injection Ht as Ht0 _. rewrite Ht0.
  pose proof (Z.mod_pos_bound base_temp 7 eq_refl) as B.
  generalize dependent (base_temp mod 7). intros o _ B.
  cbn [In].
  repeat split; intros; Z.div_mod_to_equations; lia.
Qed.

Lemma clock12_injective (a b : Z) :
  0 <= a < 24 -> 0 <= b < 24 -> Design.clock12 a = Design.clock12 b -> a = b.
Proof.
  intros Ha Hb E.
  pose proof (checked_on_range
                (fun x => forallb
                            (fun y => implb (String.eqb (Design.clock12 x) (Design.clock12 y))
                                            (x =? y))
                            (range 24))
                24 eq_refl a Ha) as H.
  cbv beta in H.
  pose proof (checked_on_range _ 24 H b Hb) as H'. cbv beta in H'.
  rewrite E, String.eqb_refl in H'. cbn [implb] in H'.
  apply Z.eqb_eq. exact H'.
Qed.

Lemma NoDup_map_on {A B : Type} (f : A -> B) (l : list A) :
  (forall x y, In x l -> In y l -> f x = f y -> x = y) ->
  NoDup l -> NoDup (map f l).
Proof.
  intros Inj N. induction N as [|x l Hx N IH]; cbn [map]; constructor.
  - intros H. apply in_map_iff in H. destruct H as (y & E & Hy).
    apply Hx. rewrite (Inj x y); [exact Hy | left; reflexivity | right; exact Hy | auto].
  - apply IH. intros a b Ha Hb. apply Inj; right; assumption.
Qed.

(** X6. The six labels of a forecast are pairwise different, and a label
    tells the hour of the day: two hours with the same label are the same
    hour. *)
Theorem hourly_labels_distinct (now : datetime) (base_temp : Z)
    (base_condition : string) :
  exists slots,
    generate_hourly_forecast now base_temp base_condition = Ok slots
    /\ NoDup (map hour slots)
    /\ (forall a b : Z,
           0 <= a < 24 -> 0 <= b < 24 -> Design.clock12 a = Design.clock12 b -> a = b).
Proof.
  destruct (forecast_temps now base_temp base_condition) as (slots & E & _ & Hh).
  exists slots. split; [exact E|]. split; [|exact clock12_injective].
  rewrite Hh.
  rewrite <- (map_map (fun i => (hour_of now + i) mod 24) Design.clock12).
  assert (B : 0 <= hour_of now < 24) by (apply Z.mod_pos_bound; reflexivity).
  apply NoDup_map_on.
  - intros a b Ha Hb. apply clock12_injective.
    + apply in_map_iff in Ha. destruct Ha as (i & <- & _).
      apply Z.mod_pos_bound; reflexivity.
    + apply in_map_iff in Hb. destruct Hb as (i & <- & _).
      apply Z.mod_pos_bound; reflexivity.
  - cbn [map]. generalize dependent (hour_of now). intros h B.
    repeat (constructor; [cbn [In]; Z.div_mod_to_equations; lia|]). constructor.
Qed.

(** The emoji of a turn, by the condition: the fallback for a condition
    that [WEATHER_EMOJI] does not hold; for a storm, rain on the even hours;
    for a clear sky, the sun or the sun behind a cloud; else the emoji of
    the condition.  No subscript raises [KeyError]. *)
Lemma pick_emoji_cases (base_condition : string) (i seed_offset : Z) :
  pick_emoji base_condition i seed_offset
  = Ok match dict_lookup WEATHER_EMOJI base_condition with
       | None => FALLBACK_EMOJI
       | Some e =>
           if String.eqb base_condition "storm" then
             (if i mod 2 =? 0 then dict_get WEATHER_EMOJI "rain" FALLBACK_EMOJI else e)
           else if String.eqb base_condition "clear" then
             (if (i + seed_offset) mod 5 <? 3 then e
              else dict_get WEATHER_EMOJI "partly" FALLBACK_EMOJI)
           else e
       end.
Proof.
  unfold pick_emoji. cbv zeta.
  destruct (String.eqb_spec base_condition "rain") as [-> | Nr];
    [cbn; destruct (i mod 2 =? 0); reflexivity|].
  destruct (String.eqb_spec base_condition "storm") as [-> | Ns];
    [cbn; destruct (i mod 2 =? 0); reflexivity|].
  cbn [orb andb].
  destruct (String.eqb_spec base_condition "clear") as [-> | Nc];
    [cbn; destruct ((i + seed_offset) mod 5 <? 3); reflexivity|].
  destruct (String.eqb_spec base_condition "partly") as [-> | Np]; [reflexivity|].
  destruct (String.eqb_spec base_condition "cloudy") as [-> | Ny]; [reflexivity|].
  destruct (String.eqb_spec base_condition "mist") as [-> | Nm]; [reflexivity|].
  destruct (String.eqb_spec base_condition "snow") as [-> | Nw]; [reflexivity|].
  unfold dict_get, FALLBACK_EMOJI.
  destruct (dict_lookup WEATHER_EMOJI base_condition); reflexivity.
Qed.

Lemma forecast_emoji (now : datetime) (base_temp : Z) (base_condition : string) :
  exists slots,
    generate_hourly_forecast now base_temp base_condition = Ok slots
    /\ map (fun s => Ok (emoji s)) slots
       = map (fun i => pick_emoji base_condition i (base_temp mod 7)) [0; 1; 2; 3; 4; 5]
    /\ map temp slots
       = map (fun i => base_temp + ((i + base_temp mod 7) mod 7) - 3) [0; 1; 2; 3; 4; 5].
Proof.
  destruct (forecast_slots now base_temp base_condition) as (slots & E & F).
  exists slots. split; [exact E|].
  assert (G : forall hours ss,
             Forall2 (fun i s => hourly_slot now base_temp base_condition
                                   (base_temp mod 7) i = Ok s) hours ss ->
             map (fun s => Ok (emoji s)) ss
             = map (fun i => pick_emoji base_condition i (base_temp mod 7)) hours
             /\ map temp ss
                = map (fun i => base_temp + ((i + base_temp mod 7) mod 7) - 3) hours).
  { intros hours ss H. induction H as [|i s hours ss Hs _ IH]; [split; reflexivity|].
    destruct IH as (IH1 & IH2). cbn [map]. rewrite IH1, IH2.
    unfold hourly_slot in Hs.
    destruct (pick_emoji base_condition i (base_temp mod 7)) as [e|x];
      cbn [bind] in Hs; [|discriminate Hs].
    injection Hs as <-. split; reflexivity. }
  apply G, F.
Qed.

(** X7. The emoji of the six slots, by the base condition: a condition that
    [WEATHER_EMOJI] does not hold gives the fallback emoji six times; "storm"
    gives rain and storm in turn, rain first; "clear" gives, at hour [i], the
    sun when [(i + base_temp mod 7) mod 5 < 3] and the sun behind a cloud
    otherwise; any other condition gives its own emoji six times.  The
    subscripts of [WEATHER_EMOJI] raise nothing. *)
Theorem hourly_emoji_by_condition (now : datetime) (base_temp : Z)
    (base_condition : string) :
  exists slots,
    generate_hourly_forecast now base_temp base_condition = Ok slots
    /\ map emoji slots
       = match dict_lookup WEATHER_EMOJI base_condition with
         | None => repeat FALLBACK_EMOJI 6
         | Some e =>
             let rain := dict_get WEATHER_EMOJI "rain" FALLBACK_EMOJI in
             let partly := dict_get WEATHER_EMOJI "partly" FALLBACK_EMOJI in
             if String.eqb base_condition "storm" then [rain; e; rain; e; rain; e]
             else if String.eqb base_condition "clear" then
               map (fun i => if (i + base_temp mod 7) mod 5 <? 3 then e else partly)
                   [0; 1; 2; 3; 4; 5]
             else repeat e 6
         end.
Proof.
  destruct (forecast_emoji now base_temp base_condition) as (slots & E & He & _).
  exists slots. split; [exact E|].
  assert (I : forall a b : list string, map (@Ok string) a = map (@Ok string) b -> a = b).
  { induction a as [|x a IH]; destruct b as [|y b]; cbn [map]; intros H;
      try discriminate H; [reflexivity|].
    injection H as -> H. f_equal. apply IH, H. }
  apply I. rewrite map_map, He. cbn [map]. rewrite !pick_emoji_cases.
  destruct (dict_lookup WEATHER_EMOJI base_condition) as [e|]; [|reflexivity].
  cbv zeta.
  destruct (String.eqb base_condition "storm"); [reflexivity|].
  destruct (String.eqb base_condition "clear"); reflexivity.
Qed.

(** ** The forecast of a city *)



(** ** The primary outfit and the alternates *)

(** X9. The primary outfit returned is the one of the band, but for what the
    rain rule does when the precipitation chance is above 40: ", Umbrella"
    is appended to the accessories, and an outerwear "None" becomes a
    packable raincoat.  So the primary outfit has no outerwear exactly in
    the hot and humid band with a chance of 40 at most. *)
Theorem primary_outfit_cases (w : WeatherReading) :
  let b := l_primary (band_rule w) in
  let p := primary (outfit_logic_from_weather w) in
  top p = top b /\ bottom p = bottom b /\ footwear p = footwear b
  /\ accessories p
     = (if precip_chance w >? 40 then accessories b ++ ", Umbrella" else accessories b)
  /\ outerwear p
     = (if (precip_chance w >? 40) && String.eqb (outerwear b) "None"
        then "Packable raincoat" else outerwear b)
  /\ (outerwear p = "None"
      <-> select_band (temp_c w) (humidity w) = HotHumid /\ precip_chance w <= 40).
Proof.
  cbv zeta.
  assert (W : PyStr.contains "Wool" (top (l_primary (rain_rule w (band_rule w)))) = false).
  { rewrite rain_rule_top. apply band_top_without_wool. }
  unfold outfit_logic_from_weather, conclude. cbv zeta. cbn [primary].
  rewrite wind_rule_primary, (humidity_rule_without_wool w _ W),
    humidity_note_only_primary.
  unfold rain_rule, band_rule. cbv zeta.
  destruct (select_band (temp_c w) (humidity w));
    destruct (precip_chance w >? 40) eqn:P; to_prop;
    repeat split; intros; try discriminate; try reflexivity; try lia;
    match goal with H : _ /\ _ |- _ => destruct H; try discriminate; lia end.
Qed.

Lemma rules_keep_alternates (w : WeatherReading) (l : Locals) :
  let l' := wind_rule w (humidity_rule w (rain_rule w l)) in
  alt1 l' = alt1 l /\ alt2 l' = alt2 l
  /\ footwear (l_primary l') = footwear (l_primary l).
Proof.
  cbv zeta. unfold wind_rule, humidity_rule, rain_rule. cbv zeta.
  destruct (precip_chance w >? 40), (humidity w >? 70), (wind_kmh w >? 30);
    cbn [alt1 alt2 l_primary]; repeat split;
    unfold reword_top; cbn [set_top footwear];
    by_tests; reflexivity.
Qed.

Lemma ensure_variation_other_footwear (base alt : Outfit) :
  footwear alt <> footwear base -> ensure_variation base alt = alt.
Proof.
  intros N. unfold ensure_variation.
  destruct (String.eqb_spec (footwear base) (footwear alt)) as [E | _];
    [contradiction N; auto | reflexivity].
Qed.

Lemma band_footwear (b : Band) (w : WeatherReading) :
  let l := band_body b w in
  footwear (alt1 l) <> footwear (l_primary l)
  /\ footwear (alt2 l) <> footwear (l_primary l)
  /\ Forall (fun alt => In (footwear alt)
                            ["Slip-ons"; "Sport sandals"; "Casual sneakers"; "Loafers";
                             "Ankle boots"; "Casual boots"; "Insulated boots";
                             "Knee boots"])
             [alt1 l; alt2 l].
Proof.
  destruct b; cbv zeta; (split; [discriminate|]); (split; [discriminate|]);
    repeat (apply Forall_cons; [cbn; auto 10|]); apply Forall_nil.
Qed.

(** X10. The marker " (alt)" is never put: in every recommendation the two
    alternates are the ones that the band built, untouched, because no band
    gives an alternate the footwear of its primary outfit. *)
Theorem alternates_are_never_marked (w : WeatherReading) :
  let r := outfit_logic_from_weather w in
  alternates r = [alt1 (band_rule w); alt2 (band_rule w)]
  /\ Forall (fun alt => footwear alt <> footwear (primary r)) (alternates r)
  /\ Forall (fun alt => In (footwear alt)
                           ["Slip-ons"; "Sport sandals"; "Casual sneakers"; "Loafers";
                            "Ankle boots"; "Casual boots"; "Insulated boots";
                            "Knee boots"])
            (alternates r).
Proof.
  cbv zeta.
  destruct (rules_keep_alternates w (band_rule w)) as (E1 & E2 & Ef).
  destruct (band_footwear (select_band (temp_c w) (humidity w)) w) as (N1 & N2 & F).
  fold (band_rule w) in N1, N2, F.
  assert (A : alternates (outfit_logic_from_weather w)
              = [alt1 (band_rule w); alt2 (band_rule w)]).
  { unfold outfit_logic_from_weather, conclude. cbv zeta. cbn [alternates].
    rewrite !ensure_variation_other_footwear by (rewrite ?E1, ?E2, Ef; assumption).
    rewrite E1, E2. reflexivity. }
  rewrite A. split; [reflexivity|]. split; [|exact F].
  unfold outfit_logic_from_weather, conclude. cbv zeta. cbn [primary]. rewrite Ef.
  repeat (apply Forall_cons; [assumption|]). apply Forall_nil.
Qed.

(** ** The confidence *)

Lemma confidence_eq_formula (w : WeatherReading) :
  confidence (outfit_logic_from_weather w) = Design.confidence_formula w.
Proof.
  unfold outfit_logic_from_weather, conclude. cbv zeta. cbn [confidence].
  rewrite matches_is_weight_sum.
  unfold confidence_of, Design.confidence_formula. cbv zeta.
  rewrite (Z.mul_comm (Design.weight_sum w) 12). reflexivity.
Qed.

(** X11. The confidence takes one of seven values, 64 at least; it is 100
    exactly when the weights of the rules that fired sum to 5 or more, and
    64, the least, exactly when the band rule of weight 2 fired alone at a
    temperature between 18 and 29. *)
Theorem confidence_values (w : WeatherReading) :
  let c := confidence (outfit_logic_from_weather w) in
  In c [64; 72; 76; 84; 88; 96; 100]
  /\ 64 <= c <= 100
  /\ (c = 100 <-> 5 <= Design.weight_sum w)
  /\ (c = 64 <-> Design.weight_sum w = 2 /\ 18 <= temp_c w < 30).
Proof.
  cbv zeta. rewrite confidence_eq_formula.
  pose proof (weight_sum_bounds w) as B.
  unfold Design.confidence_formula. cbv zeta.
  generalize dependent (Design.weight_sum w). intros W B.
  assert (D : W = 2 \/ W = 3 \/ W = 4 \/ 5 <= W <= 7) by lia.
  destruct ((temp_c w >=? 30) || (temp_c w <? 18)) eqn:T; to_prop;
    (split; [cbn [In]; lia|]); repeat split; intros; lia.
Qed.

(** ** The notes and the sentence of reasons *)

Lemma append_assoc (a b c : string) : (a ++ b) ++ c = a ++ (b ++ c).
Proof.
  induction a as [|x a IH]; [reflexivity|].
  cbn [String.append]. rewrite IH. reflexivity.
Qed.

Lemma append_empty_r (a : string) : a ++ "" = a.
Proof.
  induction a as [|x a IH]; [reflexivity|].
  cbn [String.append]. rewrite IH. reflexivity.
Qed.

Lemma append_nonempty_r (a b : string) : b <> "" -> a ++ b <> "".
Proof.
  intros N E. apply (f_equal String.length) in E.
  rewrite length_append in E. cbn [String.length] in E.
  destruct b; [contradiction N; reflexivity | cbn [String.length] in E; lia].
Qed.

Lemma append_nonempty_l (a b : string) : a <> "" -> a ++ b <> "".
Proof.
  destruct a; [intros N; contradiction N; reflexivity | discriminate].
Qed.

Lemma rev_onto_append (s acc : string) :
  PyStr.rev_onto s acc = PyStr.rev s ++ acc.
Proof.
  revert acc. induction s as [|x s IH]; intros acc; [reflexivity|].
  unfold PyStr.rev. cbn [PyStr.rev_onto].
  rewrite (IH (String x acc)), (IH (String x "")), append_assoc. reflexivity.
Qed.

Lemma rev_append (a b : string) : PyStr.rev (a ++ b) = PyStr.rev b ++ PyStr.rev a.
Proof.
  induction a as [|x a IH].
  - cbn [String.append]. rewrite append_empty_r. reflexivity.
  - cbn [String.append]. unfold PyStr.rev at 1 3. cbn [PyStr.rev_onto].
    rewrite !rev_onto_append, IH, append_assoc. reflexivity.
Qed.

Lemma rev_rev (s : string) : PyStr.rev (PyStr.rev s) = s.
Proof.
  induction s as [|x s IH]; [reflexivity|].
  unfold PyStr.rev at 2. cbn [PyStr.rev_onto].
  rewrite rev_onto_append, rev_append, IH. reflexivity.
Qed.

Lemma mem_append (c : ascii) (a b : string) :
  PyStr.mem c (a ++ b) = PyStr.mem c a || PyStr.mem c b.
Proof.
  induction a as [|x a IH]; [reflexivity|].
  cbn [String.append PyStr.mem]. rewrite IH, orb_assoc. reflexivity.
Qed.

(** The characters of a decimal numeral are digits and the minus sign. *)
Lemma of_int_chars (c : ascii) (n : Z) :
  PyStr.mem c "-0123456789" = false -> PyStr.mem c (PyStr.of_int n) = false.
Proof.
  intros H. cbn [PyStr.mem] in H.
  repeat (apply orb_false_elim in H; destruct H as (? & H)).
  assert (U : forall d, PyStr.mem c (NilEmpty.string_of_uint d) = false).
  { induction d; cbn [NilEmpty.string_of_uint PyStr.mem];
      rewrite ?IHd; try reflexivity;
      match goal with E : Ascii.eqb c _ = false |- Ascii.eqb c _ || false = false =>
        rewrite E; reflexivity end. }
  assert (V : forall d, PyStr.mem c (NilZero.string_of_uint d) = false).
  { intros d. destruct d; try apply U. cbn. rewrite orb_false_r. assumption. }
  unfold PyStr.of_int, NilZero.string_of_int.
  destruct (Z.to_int n) as [d | d]; [apply V|].
  cbn [PyStr.mem]. rewrite V, orb_false_r. assumption.
Qed.

Lemma lstrip_append (cs x y : string) :
  PyStr.lstrip cs x <> "" -> PyStr.lstrip cs (x ++ y) = PyStr.lstrip cs x ++ y.
Proof.
  induction x as [|c x IH]; intros N; [contradiction N; reflexivity|].
  cbn [String.append PyStr.lstrip] in *.
  destruct (PyStr.mem c cs); [apply IH, N | reflexivity].
Qed.

(** A suffix that stripping keeps whole shields what precedes it. *)
Lemma rstrip_append (cs a b : string) :
  PyStr.rstrip cs b = b -> b <> "" -> PyStr.rstrip cs (a ++ b) = a ++ b.
Proof.
  unfold PyStr.rstrip. intros E N.
  assert (L : PyStr.lstrip cs (PyStr.rev b) = PyStr.rev b).
  { rewrite <- E at 2. rewrite rev_rev. reflexivity. }
  assert (R : PyStr.rev b <> "").
  { intros H. apply N. rewrite <- (rev_rev b), H. reflexivity. }
  rewrite rev_append, lstrip_append by (rewrite L; exact R).
  rewrite L, <- rev_append, rev_rev. reflexivity.
Qed.

Lemma rstrip_blank (cs s : string) (c : ascii) :
  PyStr.mem c cs = true ->
  PyStr.rstrip cs (s ++ String c "") = PyStr.rstrip cs s.
Proof.
  intros M. unfold PyStr.rstrip. rewrite rev_append.
  change (PyStr.rev (String c "")) with (String c "").
  cbn [String.append PyStr.lstrip]. rewrite M. reflexivity.
Qed.

Lemma split_head_append (c : ascii) (sep a b : string) :
  PyStr.mem c a = false ->
  PyStr.split_head (String c sep) (a ++ b) = a ++ PyStr.split_head (String c sep) b.
Proof.
  induction a as [|x a IH]; intros M; [reflexivity|].
  cbn [PyStr.mem] in M. apply orb_false_elim in M. destruct M as (Mx & Ma).
  cbn [String.append PyStr.split_head String.prefix].
  destruct (ascii_dec c x) as [-> | _]; [rewrite Ascii.eqb_refl in Mx; discriminate Mx|].
  rewrite (IH Ma). reflexivity.
Qed.

(** What the sentence of reasons keeps of a note: its clause. *)
Lemma clause_of_note (c advice : string) :
  Notes.tight c ->
  PyStr.strip_ws (PyStr.split_head "→" (Notes.render (c, advice))) = c.
Proof.
  intros (M & L & R & N). unfold Notes.render. cbn [fst snd].
  change "→" with (String Notes.arrow_byte (String (ascii_of_nat 134)
                     (String (ascii_of_nat 146) ""))).
  rewrite (split_head_append _ _ _ _ M).
  change (PyStr.split_head _ (_ ++ advice)) with " ".
  unfold PyStr.strip_ws, PyStr.strip.
  rewrite lstrip_append by (rewrite L; exact N).
  rewrite L, rstrip_blank by reflexivity. exact R.
Qed.

(** The clauses of the program are tight. *)
Ltac tight_clause :=
  unfold Notes.tight; (split; [|split; [|split]]);
  [ rewrite ?mem_append, ?of_int_chars by reflexivity; reflexivity
  | rewrite lstrip_append by (vm_compute; discriminate); reflexivity
  | repeat first [ reflexivity
                 | apply rstrip_append;
                   [| repeat first [discriminate | apply append_nonempty_r]] ]
  | apply append_nonempty_l; discriminate ].

Lemma fired_notes_tight (w : WeatherReading) :
  Forall (fun note => Notes.tight (fst note)) (Notes.fired_notes w).
Proof.
  unfold Notes.fired_notes.
  apply Forall_cons; [|apply Forall_app; split; [|apply Forall_app; split]].
  - destruct (select_band (temp_c w) (humidity w)); cbn [Notes.band_note fst];
      tight_clause.
  - destruct (precip_chance w >? 40); [|apply Forall_nil].
    apply Forall_cons; [|apply Forall_nil]. cbn [Notes.rain_note fst]. tight_clause.
  - destruct (humidity w >? 70); [|apply Forall_nil].
    apply Forall_cons; [|apply Forall_nil]. cbn [Notes.humidity_note fst]. tight_clause.
  - destruct (wind_kmh w >? 30); [|apply Forall_nil].
    apply Forall_cons; [|apply Forall_nil]. cbn [Notes.wind_note fst]. tight_clause.
Qed.

Lemma clauses_of_notes (notes : list (string * string)) :
  Forall (fun note => Notes.tight (fst note)) notes ->
  map (fun s => PyStr.strip_ws (PyStr.split_head "→" s)) (map Notes.render notes)
  = map fst notes.
Proof.
  induction 1 as [|[c advice] notes T _ IH]; [reflexivity|].
  cbn [map fst]. rewrite IH, (clause_of_note c advice T). reflexivity.
Qed.

Lemma Forall_first {A : Type} (P : A -> Prop) (n : nat) (l : list A) :
  Forall P l -> Forall P (firstn n l).
Proof.
  intros F. revert n. induction F as [|x l Hx _ IH]; intros [|n]; cbn [firstn];
    constructor; auto.
Qed.

(** The notes that the rules append are the notes of section [Notes]. *)
Lemma reasons_are_fired_notes (w : WeatherReading) :
  reasons (wind_rule w (humidity_rule w (rain_rule w (band_rule w))))
  = map Notes.render (Notes.fired_notes w).
Proof.
  unfold wind_rule, humidity_rule, rain_rule, band_rule, Notes.fired_notes. cbv zeta.
  destruct (select_band (temp_c w) (humidity w));
    destruct (precip_chance w >? 40), (humidity w >? 70), (wind_kmh w >? 30);
    cbn [reasons band_body List.app map]; unfold append; cbn [List.app];
    unfold Notes.render, Notes.band_note, Notes.rain_note, Notes.humidity_note,
      Notes.wind_note; cbn [fst snd];
    rewrite !append_assoc; reflexivity.
Qed.

(** X12. The bullets are the notes of the rules that fired, between one and
    four, each a clause, an arrow and an advice; the sentence of reasons is
    made of the clauses of the first two, joined by " and ", and of the
    closing words: the third and the fourth note never show in it, and a
    single note gives a sentence without " and ". *)
Theorem reasoning_from_first_two_notes (w : WeatherReading) :
  let r := outfit_logic_from_weather w in
  let notes := Notes.fired_notes w in
  bullets r = map Notes.render notes
  /\ (1 <= List.length notes <= 4)%nat
  /\ reasoning r
     = PyStr.join " and " (map fst (firstn 2 notes)) ++ " — choose accordingly."
  /\ Forall (fun note => PyStr.mem Notes.arrow_byte (fst note) = false) notes.
Proof.
  cbv zeta.
  unfold outfit_logic_from_weather, conclude. cbv zeta. cbn [bullets reasoning].
  rewrite reasons_are_fired_notes.
  split; [reflexivity|].
  split.
  { unfold Notes.fired_notes.
    destruct (precip_chance w >? 40), (humidity w >? 70), (wind_kmh w >? 30);
      cbn [List.app List.length]; lia. }
  split.
  - unfold reasoning_of. rewrite firstn_map, clauses_of_notes; [reflexivity|].
    apply Forall_first, fired_notes_tight.
  - eapply Forall_impl; [|apply fired_notes_tight]. intros note T. apply T.
Qed.

(** The sentence on a reading where all four rules fire. *)
Example reasoning_of_four_notes :
  reasoning (outfit_logic_from_weather (mkWeather 31 90 50 35 "rain"))
  = "High temperature (31 °C) and humidity (90%) and High precipitation chance (50%) — choose accordingly.".
Proof. vm_compute. reflexivity. Qed.

(** ** The select box *)

Lemma distinct_NoDup {A : Type} (eqb : A -> A -> bool) (l : list A) :
  (forall x y, eqb x y = true <-> x = y) -> distinct eqb l = true -> NoDup l.
Proof.
  intros S. induction l as [|x l IH]; cbn [distinct]; intros H; constructor.
  - apply andb_prop in H. destruct H as (H & _). apply negb_true_iff in H.
    intros I. assert (E : existsb (eqb x) l = true).
    { apply existsb_exists. exists x. split; [exact I | apply S; reflexivity]. }
    rewrite E in H. discriminate H.
  - apply IH. apply andb_prop in H. apply H.
Qed.

Lemma capitals_nonempty : ~ In "" CAPITALS.
Proof.
  intros H. unfold CAPITALS in H. cbn [In] in H.
  repeat (destruct H as [H | H]; [discriminate H|]). exact H.
Qed.

(** X13. The select box offers thirty-six capitals, pairwise different and
    none empty, so that the placeholder is its only option without a truth
    value; the seeds of the capitals are pairwise different too, also for
    the three entries of Chandigarh. *)
Theorem capitals_and_their_seeds :
  List.length CAPITALS = 36%nat
  /\ NoDup CAPITALS
  /\ ~ In "" CAPITALS
  /\ Forall (fun c => city_truth (Some c) = true) CAPITALS
  /\ exists seeds,
       map (fun c => city_to_seed (Some c)) CAPITALS = map Ok seeds
       /\ NoDup seeds.
Proof.
  split; [reflexivity|].
  split; [apply (distinct_NoDup String.eqb); [apply String.eqb_eq | reflexivity]|].
  split; [exact capitals_nonempty|].
  split.
  - apply Forall_forall. intros c Hc. destruct c; [|reflexivity].
    contradiction (capitals_nonempty Hc).
  - exists (map (fun c => match city_to_seed (Some c) with Ok n => n | Raise _ => 0 end)
               CAPITALS).
    split; [vm_compute; reflexivity|].
    apply (distinct_NoDup Z.eqb); [apply Z.eqb_eq | vm_compute; reflexivity].
Qed.

(** X14. Among the capitals of the select box, exactly three get a reading
    of 30 degrees or more with a humidity under 65, on which the cascade of
    the bands falls to its last branch: for them, and for them only among
    the capitals with 18 degrees or more, the engine recommends the outfit
    of the cold band. *)
Theorem capitals_in_the_cold_band_when_hot :
  filter (fun c =>
            match synthesize_weather (Some c) with
            | Ok w =>
                (18 <=? temp_c w)
                && String.eqb (top (primary (outfit_logic_from_weather w))) "Thermal top"
            | Raise _ => false
            end) CAPITALS
  = ["Gujarat — Gandhinagar"; "Tamil Nadu — Chennai"; "Uttar Pradesh — Lucknow"]
  /\ map (fun c => match synthesize_weather (Some c) with
                   | Ok w => (temp_c w, humidity w)
                   | Raise _ => (0, 0)
                   end)
         ["Gujarat — Gandhinagar"; "Tamil Nadu — Chennai"; "Uttar Pradesh — Lucknow"]
     = [(32, 54); (36, 60); (32, 46)].
Proof. split; vm_compute; reflexivity. Qed.

(** ** The session, run after run *)

Lemma init_session_state_ready (st : Session) :
  ready st -> init_session_state st = st.
Proof.
  intros (Hp & Hl & Hs & (g & lr & Hg & Hr & _) & _).
  destruct st as [p sc fg lm res]. cbn in *.
  destruct Hp as [-> | ->]; subst;
    destruct Hs as [-> | (c & -> & _)]; reflexivity.
Qed.

Lemma ready_default : ready (init_session_state empty_session).
Proof.
  unfold ready. cbn.
  split; [auto|]. split; [reflexivity|]. split; [auto|].
  split; [|auto].
  exists false, None. split; [reflexivity|]. split; [reflexivity|].
  split; intros; discriminate.
Qed.

(** The first run finds the session empty and starts from the defaults. *)
Lemma run_empty (ui : Widgets) :
  run ui empty_session = run ui (init_session_state empty_session).
Proof. reflexivity. Qed.

(** A run on the landing page. *)
Lemma run_landing (ui : Widgets) (st : Session) :
  ready st -> page st = Some "landing" ->
  run ui st
  = if enter_clicked ui
    then (mkWorld (set_forecast_generated false (set_page "main" st)) [], Exn Rerun)
    else (mkWorld st [], Val tt).
Proof.
  intros R P. pose proof (init_session_state_ready st R) as I.
  destruct R as (_ & Hl & _).
  unfold run, main, andthen, update. cbn [session shown]. rewrite I.
  unfold attr. cbn [session]. rewrite Hl. cbv beta iota. cbn [session].
  rewrite P. cbv beta iota. cbn [String.eqb Ascii.eqb Bool.eqb].
  unfold landing_page. destruct (enter_clicked ui); reflexivity.
Qed.

(** A run on the main page: the three cases of the forecast button. *)
Lemma run_main (ui : Widgets) (st : Session) :
  ready st -> page st = Some "main" -> offered ui ->
  let st1 :=
    set_selected_city
      (match selected ui with EmptyString => None | _ => Some (selected ui) end) st in
  (forecast_clicked ui = false /\ run ui st = (mkWorld st1 (view st1), Val tt))
  \/ (forecast_clicked ui = true /\ selected ui = ""
      /\ run ui st = (mkWorld st1 (Warning :: view st1), Val tt))
  \/ (forecast_clicked ui = true /\ selected ui <> ""
      /\ exists r,
           coherent r /\ res_city r = selected ui /\ res_time r = clock_iso ui
           /\ run ui st
              = (mkWorld (set_forecast_generated true (set_last_result (Some r) st1))
                   [OutfitCard r; WeatherSidebar r],
                 Val tt)).
Proof.
  intros R P O. pose proof (init_session_state_ready st R) as I.
  destruct R as (_ & Hl & Hs & (g & lr & Hg & Hr & Hgl & _) & _).
  cbv zeta.
  assert (M : run ui st = ui_main ui (mkWorld st [])).
  { unfold run, main, andthen, update. cbn [session shown]. rewrite I.
    unfold attr. cbn [session]. rewrite Hl. cbv beta iota. cbn [session].
    rewrite P. reflexivity. }
  rewrite M. clear M I.
  destruct st as [p sc fg lm res]. cbn [page selected_city forecast_generated
                                        light_mode last_result] in *.
  subst p fg lm res.
  unfold ui_main, forecast_button, view. cbv zeta.
  destruct (forecast_clicked ui) eqn:F.
  - right. destruct (selected ui) as [|c s] eqn:S.
    + left. split; [reflexivity|]. split; [reflexivity|].
      destruct g; [destruct lr as [r|]; [reflexivity | contradiction (Hgl eq_refl); reflexivity]
                  | reflexivity].
    + right. split; [reflexivity|]. split; [discriminate|].
      destruct (synthesize_weather_total (Some (String c s))) as (w & Ew & _).
      destruct (forecast_temps (clock_now ui) (temp_c w) (condition w)) as (slots & Eh & _).
      exists (mkResult (String c s) w (outfit_logic_from_weather w) slots (clock_iso ui)).
      split.
      { unfold coherent. cbn [res_city res_weather res_outfit res_hourly].
        split.
        - unfold offered in O. rewrite S in O.
          destruct O as [O | O]; [discriminate O | exact O].
        - split; [exact Ew|]. split; [reflexivity|]. exists (clock_now ui). exact Eh. }
      split; [reflexivity|]. split; [reflexivity|].
      unfold andthen, attr, update, show, ret, raise, lift.
      cbn -[synthesize_weather generate_hourly_forecast outfit_logic_from_weather].
      rewrite Ew.
      cbn -[synthesize_weather generate_hourly_forecast outfit_logic_from_weather].
      rewrite Eh. reflexivity.
  - left. split; [reflexivity|].
    destruct g; [destruct lr as [r|]; [|contradiction (Hgl eq_refl); reflexivity]
                | destruct (selected ui); reflexivity].
    destruct (selected ui); reflexivity.
Qed.

Lemma ready_enter (st : Session) :
  ready st -> page st = Some "landing" ->
  ready (set_forecast_generated false (set_page "main" st)).
Proof.
  intros (_ & Hl & _ & _ & L) P. destruct (L P) as (Hs & _ & Hr).
  unfold ready. cbn [page light_mode selected_city forecast_generated last_result
                     set_forecast_generated set_page].
  split; [auto|]. split; [exact Hl|]. split; [auto|].
  split; [|discriminate].
  exists false, None. rewrite Hr. split; [reflexivity|]. split; [reflexivity|].
  split; intros; discriminate.
Qed.

Lemma ready_select (st : Session) (city : option string) :
  ready st -> page st = Some "main" ->
  (city = None \/ exists c, city = Some c /\ In c CAPITALS) ->
  ready (set_selected_city city st).
Proof.
  intros (_ & Hl & _ & G & _) P C.
  unfold ready. cbn [page light_mode selected_city forecast_generated last_result
                     set_selected_city].
  split; [auto|]. split; [exact Hl|].
  split; [destruct C as [-> | (c & -> & I)]; [left | right; exists c]; auto|].
  split; [exact G|]. rewrite P. discriminate.
Qed.

Lemma ready_store (st : Session) (r : ForecastResult) :
  ready st -> page st = Some "main" -> coherent r ->
  ready (set_forecast_generated true (set_last_result (Some r) st)).
Proof.
  intros (_ & Hl & Hs & _ & _) P C.
  unfold ready. cbn [page light_mode selected_city forecast_generated last_result
                     set_forecast_generated set_last_result].
  split; [auto|]. split; [exact Hl|]. split; [exact Hs|].
  split; [|rewrite P; discriminate].
  exists true, (Some r). split; [reflexivity|]. split; [reflexivity|].
  split; [discriminate|].
  intros r' E. injection E as <-. exact C.
Qed.

Lemma offered_city (ui : Widgets) :
  offered ui ->
  match selected ui with EmptyString => None | _ => Some (selected ui) end = None
  \/ exists c,
       match selected ui with EmptyString => None | _ => Some (selected ui) end = Some c
       /\ In c CAPITALS.
Proof.
  unfold offered. intros O. destruct (selected ui) as [|c s]; [left; reflexivity|].
  right. exists (String c s). split; [reflexivity|].
  destruct O as [O | O]; [discriminate O | exact O].
Qed.

Lemma run_keeps_ready (ui : Widgets) (st : Session) :
  ready st -> offered ui -> ready (session (fst (run ui st))).
Proof.
  intros R O. destruct R as (Hp & R'). pose proof (conj Hp R') as R.
  destruct Hp as [P | P].
  - rewrite (run_landing ui st R P). destruct (enter_clicked ui); cbn [fst session].
    + apply ready_enter; assumption.
    + exact R.
  - destruct (run_main ui st R P O) as [(_ & E) | [(_ & _ & E) | (_ & _ & r & C & _ & _ & E)]];
      rewrite E; cbn [fst session].
    + apply ready_select; [assumption | assumption | apply offered_city, O].
    + apply ready_select; [assumption | assumption | apply offered_city, O].
    + apply ready_store; [|exact P | exact C].
      apply ready_select; [assumption | assumption | apply offered_city, O].
Qed.

Lemma reachable_ready (st : Session) :
  reachable st -> st = empty_session \/ ready st.
Proof.
  induction 1 as [|ui st _ IH O]; [left; reflexivity|].
  right. destruct IH as [-> | R].
  - rewrite run_empty. apply run_keeps_ready; [apply ready_default | exact O].
  - apply run_keeps_ready; assumption.
Qed.

(** From the session that the script finds, empty or not, to the one the run
    works on. *)
Lemma reachable_initialised (st : Session) :
  reachable st ->
  ready (init_session_state st)
  /\ (forall ui, run ui st = run ui (init_session_state st))
  /\ (page st = Some "main" -> init_session_state st = st)
  /\ (page st <> Some "main" -> page (init_session_state st) = Some "landing").
Proof.
  intros H. destruct (reachable_ready st H) as [-> | R].
  - split; [apply ready_default|]. split; [reflexivity|].
    split; [discriminate | reflexivity].
  - rewrite (init_session_state_ready st R).
    split; [exact R|]. split; [reflexivity|]. split; [reflexivity|].
    destruct R as ([P | P] & _); [intros _; exact P | intros N; contradiction].
Qed.

Lemma offered_enter : offered ui_enter.
Proof. left. reflexivity. Qed.

Lemma offered_chennai : offered ui_chennai.
Proof.
  unfold offered, ui_chennai, CAPITALS. cbn [selected].
  repeat first [left; reflexivity | right].
Qed.

Lemma offered_mumbai : offered ui_mumbai.
Proof.
  unfold offered, ui_mumbai, CAPITALS. cbn [selected].
  repeat first [left; reflexivity | right].
Qed.

Lemma reachable_after_enter : reachable after_enter.
Proof. exact (reach_run ui_enter empty_session reach_empty offered_enter). Qed.

Lemma reachable_after_chennai : reachable after_chennai.
Proof. exact (reach_run ui_chennai after_enter reachable_after_enter offered_chennai). Qed.

Lemma page_after_enter : page after_enter = Some "main".
Proof. reflexivity. Qed.

Lemma page_after_chennai : page after_chennai = Some "main".
Proof. vm_compute. reflexivity. Qed.

Lemma option_eq_dec_main (p : option string) : p = Some "main" \/ p <> Some "main".
Proof.
  destruct p as [s|]; [|right; discriminate].
  destruct (String.string_dec s "main") as [-> | N]; [left; reflexivity|].
  right. intros E. injection E as E. contradiction.
Qed.

(** X15. Every session that runs of the script lead to, whatever the
    widgets return, is empty (before the first run) or has its five keys
    set, with the page "landing" or "main", the light mode off, a selected
    city that is none or a capital, a stored result whenever the forecast
    flag is set, and every stored result coherent: its weather, outfit and
    hours are what the pipeline gives for its city. *)
Theorem session_invariant (st : Session) (H : reachable st) :
  st = empty_session \/ ready st.
Proof. exact (reachable_ready st H). Qed.

Lemma session_invariant_witness :
  reachable after_chennai /\ (after_chennai = empty_session \/ ready after_chennai).
Proof.
  split; [exact reachable_after_chennai|].
  exact (session_invariant after_chennai reachable_after_chennai).
Defined.

(** X16. A run from such a session raises no [AttributeError] and nothing
    from the pipeline: it ends normally, or by [st.rerun()], and by the
    latter exactly when the Enter button is clicked on the landing page. *)
Theorem run_ends_well (ui : Widgets) (st : Session)
    (H : reachable st) (O : offered ui) :
  (snd (run ui st) = Val tt \/ snd (run ui st) = Exn Rerun)
  /\ (snd (run ui st) = Exn Rerun
      <-> page st <> Some "main" /\ enter_clicked ui = true).
Proof.
  destruct (reachable_initialised st H) as (R & E & Pm & Pl).
  rewrite E. destruct R as (Hp & R'). pose proof (conj Hp R') as R.
  destruct Hp as [P | P].
  - assert (N : page st <> Some "main").
    { intros M. rewrite (Pm M) in P. rewrite M in P. discriminate P. }
    rewrite (run_landing ui _ R P). destruct (enter_clicked ui); cbn [snd].
    + split; [right; reflexivity|]. split; [intros _; auto | reflexivity].
    + split; [left; reflexivity|]. split; [discriminate | intros (_ & F); discriminate F].
  - assert (M : page st = Some "main").
    { destruct (option_eq_dec_main (page st)) as [M | N]; [exact M|].
      rewrite (Pl N) in P. discriminate P. }
    destruct (run_main ui _ R P O) as [(_ & X) | [(_ & _ & X) | (_ & _ & r & _ & _ & _ & X)]];
      rewrite X; cbn [snd];
      (split; [left; reflexivity|]);
      (split; [discriminate | intros (N & _); contradiction]).
Qed.

Lemma run_ends_well_witness :
  reachable empty_session /\ offered ui_enter
  /\ snd (run ui_enter empty_session) = Exn Rerun.
Proof.
  split; [exact reach_empty|]. split; [exact offered_enter|].
  apply (run_ends_well ui_enter empty_session reach_empty offered_enter).
  split; [discriminate | reflexivity].
Defined.

Lemma reachable_main_ready (st : Session) :
  reachable st -> page st = Some "main" -> ready st.
Proof.
  intros H P. destruct (reachable_ready st H) as [-> | R]; [discriminate P | exact R].
Qed.

(** X17. On the main page, a click on the forecast button with the
    placeholder selected warns, and leaves the stored result and the flag as
    they were; with a capital selected it stores a result for that capital,
    coherent and stamped with the time read, sets the flag, and the card and
    the sidebar show this result. *)
Theorem forecast_button_outcome (ui : Widgets) (st : Session)
    (H : reachable st) (P : page st = Some "main") (O : offered ui)
    (F : forecast_clicked ui = true) :
  let wd := fst (run ui st) in
  (selected ui = ""
   /\ shown wd = Warning :: view (session wd)
   /\ selected_city (session wd) = Some None
   /\ last_result (session wd) = last_result st
   /\ forecast_generated (session wd) = forecast_generated st)
  \/ (selected ui <> ""
      /\ exists r,
           coherent r /\ res_city r = selected ui /\ res_time r = clock_iso ui
           /\ selected_city (session wd) = Some (Some (selected ui))
           /\ last_result (session wd) = Some (Some r)
           /\ forecast_generated (session wd) = Some true
           /\ shown wd = [OutfitCard r; WeatherSidebar r]).
Proof.
  cbv zeta. pose proof (reachable_main_ready st H P) as R.
  destruct (run_main ui st R P O) as [(X & _) | [(_ & S & E) | (_ & S & r & C & Ec & Et & E)]].
  - rewrite X in F. discriminate F.
  - left. rewrite E. cbn [fst session shown]. rewrite S.
    repeat (split; [reflexivity|]). reflexivity.
  - right. split; [exact S|]. exists r. rewrite E. cbn [fst session shown].
    repeat (split; [assumption|]).
    split; [destruct (selected ui); [contradiction S|]; reflexivity|].
    repeat (split; [reflexivity|]). reflexivity.
Qed.

Lemma forecast_button_outcome_witness :
  reachable after_enter /\ page after_enter = Some "main" /\ offered ui_chennai
  /\ forecast_clicked ui_chennai = true
  /\ forecast_generated after_chennai = Some true.
Proof.
  repeat (split; [first [exact reachable_after_enter | exact page_after_enter
                        | exact offered_chennai | reflexivity]|]).
  destruct (forecast_button_outcome ui_chennai after_enter reachable_after_enter
              page_after_enter offered_chennai eq_refl)
    as [(S & _) | (_ & r & _ & _ & _ & _ & _ & G & _)].
  - discriminate S.
  - exact G.
Defined.

(** X18. On the main page, a run without a click on the forecast button
    changes nothing of the session but the selected city; when a result is
    stored and flagged, the card goes on showing it whatever city is
    selected now, and the sidebar shows it too unless the placeholder is
    selected. *)
Theorem run_without_forecast (ui : Widgets) (st : Session)
    (H : reachable st) (P : page st = Some "main") (O : offered ui)
    (F : forecast_clicked ui = false) :
  let wd := fst (run ui st) in
  session wd
  = set_selected_city
      (match selected ui with EmptyString => None | _ => Some (selected ui) end) st
  /\ shown wd = view (session wd)
  /\ (forall r,
         forecast_generated st = Some true -> last_result st = Some (Some r) ->
         shown wd
         = [OutfitCard r;
            match selected ui with
            | EmptyString => Placeholder
            | _ => WeatherSidebar r
            end]).
Proof.
  cbv zeta. pose proof (reachable_main_ready st H P) as R.
  destruct (run_main ui st R P O) as [(_ & E) | [(X & _) | (X & _)]];
    [|rewrite X in F; discriminate F | rewrite X in F; discriminate F].
  rewrite E. cbn [fst session shown].
  split; [reflexivity|]. split; [reflexivity|].
  intros r G L. unfold view.
  cbn [forecast_generated last_result selected_city set_selected_city].
  rewrite G, L. destruct (selected ui); reflexivity.
Qed.

Lemma run_without_forecast_witness :
  reachable after_chennai /\ page after_chennai = Some "main" /\ offered ui_mumbai
  /\ forecast_clicked ui_mumbai = false
  /\ last_result (session (fst (run ui_mumbai after_chennai)))
     = last_result after_chennai.
Proof.
  repeat (split; [first [exact reachable_after_chennai | exact page_after_chennai
                        | exact offered_mumbai | reflexivity]|]).
  destruct (run_without_forecast ui_mumbai after_chennai reachable_after_chennai
              page_after_chennai offered_mumbai eq_refl) as (E & _).
  rewrite E. reflexivity.
Defined.

(** X19. There is no way back: once the page is "main" it stays so.  And
    before that nothing is rendered from the session, and nothing can be
    selected or stored: a run ends with no selected city, no result and the
    flag unset, on the page "main" if Enter is clicked and "landing"
    otherwise. *)
Theorem pages_of_a_run (ui : Widgets) (st : Session)
    (H : reachable st) (O : offered ui) :
  let wd := fst (run ui st) in
  (page st = Some "main" -> page (session wd) = Some "main")
  /\ (page st <> Some "main" ->
      shown wd = []
      /\ page (session wd) = Some (if enter_clicked ui then "main" else "landing")
      /\ selected_city (session wd) = Some None
      /\ forecast_generated (session wd) = Some false
      /\ last_result (session wd) = Some None).
Proof.
  cbv zeta. split.
  - intros P. pose proof (reachable_main_ready st H P) as R.
    destruct (run_main ui st R P O) as [(_ & E) | [(_ & _ & E) | (_ & _ & r & _ & _ & _ & E)]];
      rewrite E; exact P.
  - intros N. destruct (reachable_initialised st H) as (R & E & _ & Pl).
    rewrite E. pose proof (Pl N) as P.
    rewrite (run_landing ui _ R P).
    destruct R as (_ & _ & _ & _ & L). destruct (L P) as (Hs & Hg & Hr).
    destruct (enter_clicked ui); cbn [fst session shown];
      cbn [page selected_city forecast_generated last_result set_forecast_generated
           set_page]; auto.
Qed.

Lemma pages_of_a_run_witness :
  reachable after_enter /\ offered ui_chennai
  /\ page (session (fst (run ui_chennai after_enter))) = Some "main".
Proof.
  split; [exact reachable_after_enter|]. split; [exact offered_chennai|].
  exact (proj1 (pages_of_a_run ui_chennai after_enter reachable_after_enter
                  offered_chennai) page_after_enter).
Defined.

Lemma view_shows_stored (st : Session) :
  ready st ->
  Forall (fun x =>
            match x with
            | OutfitCard r | WeatherSidebar r =>
                last_result st = Some (Some r) /\ forecast_generated st = Some true
                /\ coherent r
            | _ => True
            end) (view st)
  /\ (forall r, In (WeatherSidebar r) (view st) ->
                In (OutfitCard r) (view st)
                /\ exists c, selected_city st = Some (Some c) /\ In c CAPITALS).
Proof.
  intros (_ & _ & Hs & (g & lr & Hg & Hr & _ & Hc) & _).
  unfold view. rewrite Hg, Hr.
  destruct g; [destruct lr as [r|]|].
  - pose proof (Hc r eq_refl) as C. split.
    + apply Forall_cons; [auto|]. apply Forall_cons; [|apply Forall_nil].
      destruct Hs as [-> | (c & -> & _)]; [exact I|].
      destruct (city_truth (Some c)); [auto | exact I].
    + intros r' [X | [X | []]]; [discriminate X|].
      destruct Hs as [E | (c & E & Ic)]; rewrite E in X; [discriminate X|].
      destruct (city_truth (Some c)); [|discriminate X].
      injection X as <-. split; [left; reflexivity | exists c; auto].
  - split; [repeat constructor|]. intros r [X | []]. discriminate X.
  - split; [repeat constructor|]. intros r [X | []]. discriminate X.
Qed.

(** X20. Whatever a run shows of a result, in the card or in the sidebar, is
    the result that the session stores at the end of the run, flagged and
    coherent; and the sidebar shows a result only if the card shows the same
    one and a capital is selected. *)
Theorem shown_results_are_stored (ui : Widgets) (st : Session)
    (H : reachable st) (O : offered ui) :
  let wd := fst (run ui st) in
  Forall (fun x =>
            match x with
            | OutfitCard r | WeatherSidebar r =>
                last_result (session wd) = Some (Some r)
                /\ forecast_generated (session wd) = Some true
                /\ coherent r
            | _ => True
            end) (shown wd)
  /\ (forall r, In (WeatherSidebar r) (shown wd) ->
                In (OutfitCard r) (shown wd)
                /\ exists c, selected_city (session wd) = Some (Some c)
                             /\ In c CAPITALS).
Proof.
  cbv zeta.
  assert (A : ready (session (fst (run ui st)))).
  { destruct (reachable_initialised st H) as (R & E & _). rewrite E.
    apply run_keeps_ready; assumption. }
  destruct (reachable_initialised st H) as (R & E & _).
  rewrite E in *. clear E. set (st0 := init_session_state st) in *.
  destruct R as (Hp & R'). pose proof (conj Hp R') as R.
  destruct Hp as [P | P].
  - rewrite (run_landing ui st0 R P).
    destruct (enter_clicked ui); cbn [fst shown];
      (split; [apply Forall_nil | intros r []]).
  - destruct (run_main ui st0 R P O)
      as [(_ & X) | [(_ & _ & X) | (_ & S & r & C & Ec & _ & X)]];
      rewrite X in *; cbn [fst session shown] in *.
    + apply view_shows_stored, A.
    + destruct (view_shows_stored _ A) as (V1 & V2). split.
      * apply Forall_cons; [exact I | exact V1].
      * intros r [Y | Y]; [discriminate Y|].
        destruct (V2 r Y) as (V3 & V4). split; [right; exact V3 | exact V4].
    + split.
      * repeat (apply Forall_cons; [auto|]). apply Forall_nil.
      * intros r' [Y | [Y | []]]; [discriminate Y|]. injection Y as <-.
        split; [left; reflexivity|].
        destruct A as (_ & _ & [Hs | Hs] & _); [|exact Hs].
        cbn [selected_city set_forecast_generated set_last_result set_selected_city]
          in Hs.
        destruct (selected ui); [contradiction S; reflexivity | discriminate Hs].
Qed.

Lemma shown_results_are_stored_witness :
  reachable after_enter /\ offered ui_chennai
  /\ Forall (fun x =>
               match x with
               | OutfitCard r | WeatherSidebar r => coherent r
               | _ => True
               end) (shown (fst (run ui_chennai after_enter))).
Proof.
  split; [exact reachable_after_enter|]. split; [exact offered_chennai|].
  eapply Forall_impl;
    [|exact (proj1 (shown_results_are_stored ui_chennai after_enter
                      reachable_after_enter offered_chennai))].
  intros [|r|r|]; cbv beta iota; tauto.
Defined.
